(** * HydroSense dashboard: the prediction pipeline of [app.py]

    A shallow embedding of the code that runs when the Predict button is
    pressed: the one-hot encoding of the user's input against the model's
    column schema, the per-pollutant metric cards, the chart table and its
    long format, the label rule of the text layer and the note about bars
    that are too small to see.

    Numbers are what the script computes with: the year is a Python [int]
    (here [Z]), predictions and safe limits are IEEE-754 binary64 values
    (here Rocq's primitive floats, which are binary64 as well), so that
    [-], [/], [*], [abs], [<], [>=] and [==] below are the operations the
    script performs. *)

From Stdlib Require Import ZArith List String Ascii Bool Lia Floats.
From Stdlib Require Import DecimalString.
Import ListNotations.

Set Warnings "-inexact-float".
Local Open Scope string_scope.
Local Open Scope Z_scope.

(** ** Exceptions and results *)

Inductive exn : Type :=
| KeyError (label : string)
| IndexError
| ValueError (msg : string)
| ZeroDivisionError
| TypeError.

Inductive result (A : Type) : Type :=
| Ok (a : A)
| Raise (e : exn).
Arguments Ok {A} a.
Arguments Raise {A} e.

Definition bind {A B : Type} (r : result A) (k : A -> result B) : result B :=
  match r with
  | Ok a => k a
  | Raise e => Raise e
  end.

Declare Scope result_scope.
Delimit Scope result_scope with result.
Notation "'let?' x ':=' r 'in' k" := (bind r (fun x => k))
  (at level 10, x name, r at level 100, k at level 200) : result_scope.

(** ** One-row data frames

    [input_df] and [input_encoded] hold a single row, so a frame is the
    ordered list of its columns, each with the value of that row. *)

Module Frame.

Definition frame : Type := list (string * Z).

Definition columns (df : frame) : list string := map fst df.

(** [col in df.columns] *)
Definition has_column (col : string) (df : frame) : bool :=
  existsb (String.eqb col) (columns df).

(** [df[col] = v]: an existing column is overwritten in place, a new one
    is appended after the last column. *)
Fixpoint set_column (col : string) (v : Z) (df : frame) : frame :=
  match df with
  | [] => [(col, v)]
  | (c, x) :: rest =>
      if String.eqb c col then (c, v) :: rest
      else (c, x) :: set_column col v rest
  end.

(** [df[col]] for one label. *)
Fixpoint get (col : string) (df : frame) : result Z :=
  match df with
  | [] => Raise (KeyError col)
  | (c, x) :: rest => if String.eqb c col then Ok x else get col rest
  end.

(** [df[cols]] for a list of labels: the columns in the order of [cols];
    a label that is not a column raises [KeyError]. *)
Fixpoint select (cols : list string) (df : frame) : result frame :=
  match cols with
  | [] => Ok []
  | c :: rest =>
      (let? x := get c df in
       let? tl := select rest df in
       Ok ((c, x) :: tl))%result
  end.

End Frame.

(** ** Feature encoder (lines 102-108) *)

Module Encoder.
Import Frame.

(** [pd.get_dummies] names an indicator column [prefix + prefix_sep +
    value]; with [columns=['id']] the prefix is the column name. *)
Definition dummy_prefix : string := "id_".

Definition dummy_column (station_id : string) : string :=
  dummy_prefix ++ station_id.

(** [pd.DataFrame({'year': [year_input], 'id': [station_id]})] followed by
    [pd.get_dummies(input_df, columns=['id'])]: the [id] column is
    replaced by the indicator of the one value it holds, which is set
    (numerically 1) in the only row. *)
Definition get_dummies (year_input : Z) (station_id : string) : frame :=
  [("year", year_input); (dummy_column station_id, 1)].

(** The loop of lines 105-107. *)
Definition add_missing (model_cols : list string) (df : frame) : frame :=
  fold_left
    (fun input_encoded col =>
       if negb (has_column col input_encoded)
       then set_column col 0 input_encoded
       else input_encoded)
    model_cols df.

Definition encode (year_input : Z) (station_id : string)
           (model_cols : list string) : result frame :=
  let input_encoded := get_dummies year_input station_id in
  let input_encoded := add_missing model_cols input_encoded in
  select model_cols input_encoded.

Definition is_indicator (col : string) : bool :=
  String.prefix dummy_prefix col.

(** The value the encoder is meant to give the column [col]: the year in
    [year], 1 in the indicator of the station, 0 elsewhere. *)
Definition cell (year_input : Z) (station_id col : string) : Z :=
  if String.eqb col "year" then year_input
  else if String.eqb col (dummy_column station_id) then 1
       else 0.

End Encoder.

(** ** Fixed-point rendering of a binary64 value

    [format(x, '.Nf')]: the decimal with [N] fractional digits nearest to
    the exact value of [x], ties going to the even last digit. *)

Module Fmt.

Definition string_of_Z_nonneg (n : Z) : string :=
  NilZero.string_of_uint (N.to_uint (Z.to_N n)).

Fixpoint zeros (n : nat) : string :=
  match n with
  | O => ""
  | S k => String "0" (zeros k)
  end.

(** [n] written with at least [width] digits. *)
Definition pad_left (width : nat) (n : Z) : string :=
  let s := string_of_Z_nonneg n in
  zeros (width - String.length s) ++ s.

Definition round_half_even (num den : Z) : Z :=
  let q := num / den in
  let r := num mod den in
  match 2 * r ?= den with
  | Lt => q
  | Gt => q + 1
  | Eq => if Z.even q then q else q + 1
  end.

(** The integer nearest to [m * 2^e * 10^digits]. *)
Definition scaled (m : positive) (e : Z) (digits : nat) : Z :=
  let p := 10 ^ Z.of_nat digits in
  if 0 <=? e then Z.pos m * 2 ^ e * p
  else round_half_even (Z.pos m * p) (2 ^ (- e)).

Definition fixed (digits : nat) (n : Z) : string :=
  let p := 10 ^ Z.of_nat digits in
  match digits with
  | O => string_of_Z_nonneg n
  | _ => string_of_Z_nonneg (n / p) ++ "." ++ pad_left digits (n mod p)
  end.

Definition sign_prefix (s : bool) : string := if s then "-" else "".

Definition format_f (digits : nat) (x : float) : string :=
  match Prim2SF x with
  | S754_nan => "nan"
  | S754_infinity s => sign_prefix s ++ "inf"
  | S754_zero s => sign_prefix s ++ fixed digits 0
  | S754_finite s m e => sign_prefix s ++ fixed digits (scaled m e digits)
  end.

End Fmt.

(** ** Pollutants and safe limits (lines 59-67) *)

Definition pollutants : list string :=
  ["O2"; "NO3"; "NO2"; "SO4"; "PO4"; "CL"].

Definition safe_limits : list (string * float) :=
  [("O2", 5.0%float); ("NO3", 10.0%float); ("NO2", 0.1%float);
   ("SO4", 250.0%float); ("PO4", 0.1%float); ("CL", 250.0%float)].

(** [d[key]] on a dict. *)
Fixpoint dict_get (d : list (string * float)) (key : string) : result float :=
  match d with
  | [] => Raise (KeyError key)
  | (k, v) :: rest => if String.eqb k key then Ok v else dict_get rest key
  end.

(** [zip] stops at the shorter of its arguments. *)
Fixpoint zip {A B : Type} (xs : list A) (ys : list B) : list (A * B) :=
  match xs, ys with
  | x :: xs', y :: ys' => (x, y) :: zip xs' ys'
  | _, _ => []
  end.

Fixpoint enumerate_from {A : Type} (i : nat) (xs : list A) : list (nat * A) :=
  match xs with
  | [] => []
  | x :: rest => (i, x) :: enumerate_from (S i) rest
  end.

Definition enumerate {A : Type} (xs : list A) : list (nat * A) :=
  enumerate_from 0 xs.

(** ** Comparator (lines 119-147) *)

Module Comparator.

(** What one metric card interpolates into its HTML. *)
Record card : Type := {
  card_pollutant : string;
  card_value : string;
  card_arrow : string;
  card_delta_str : string;
  card_delta_color : string
}.

(** Python's [/] on floats: a zero divisor raises. (A NumPy scalar would
    warn and give an infinity or NaN instead; the script divides only
    behind its guard, where the two agree.) *)
Definition py_div (x y : float) : result float :=
  if (y =? 0)%float then Raise ZeroDivisionError else Ok (x / y)%float.

(** The body of the loop for one pollutant [p], its prediction [val] and
    the limit read from the table: [(arrow, delta_str, delta_color)]. *)
Definition deviation (val safe_limit : float)
  : result (string * string * string) :=
  if (safe_limit =? 0)%float then
    Ok ("", "N/A", "black")
  else
    (let? ratio := py_div (val - safe_limit)%float safe_limit in
     let delta := (ratio * 100)%float in
     let delta_str := Fmt.format_f 1 (abs delta) ++ "%" in
     if (delta <? 0)%float
     then Ok ("▼", delta_str, "#ea3943")
     else Ok ("▲", delta_str, "#16c784"))%result.

Definition metric (limits : list (string * float)) (p : string) (val : float)
  : result card :=
  (let? safe_limit := dict_get limits p in
   let? d := deviation val safe_limit in
   let '(arrow, delta_str, delta_color) := d in
   Ok {| card_pollutant := p;
         card_value := Fmt.format_f 2 val ++ " mg/L";
         card_arrow := arrow;
         card_delta_str := delta_str;
         card_delta_color := delta_color |})%result.

End Comparator.

(** ** Chart builder (lines 151-220) *)

Module Chart.

(** A row of [chart_df]. *)
Record wide_row : Type := {
  w_pollutant : string;
  w_predicted : float;
  w_safe_limit : float
}.

(** A row of [chart_df_long]. *)
Record long_row : Type := {
  Pollutant : string;
  Type_ : string;
  Value : float
}.

(** [pd.DataFrame] of a dict of columns: the columns must have one
    length. *)
Definition data_frame (names : list string) (predicted safe : list float)
  : result (list wide_row) :=
  if (Nat.eqb (List.length names) (List.length predicted)
      && Nat.eqb (List.length names) (List.length safe))%bool
  then Ok (map (fun t => {| w_pollutant := fst t;
                            w_predicted := fst (snd t);
                            w_safe_limit := snd (snd t) |})
               (zip names (zip predicted safe)))
  else Raise (ValueError "All arrays must be of the same length").

(** [[safe_limits[p] for p in pollutants]] *)
Fixpoint limits_of (limits : list (string * float)) (ps : list string)
  : result (list float) :=
  match ps with
  | [] => Ok []
  | p :: rest =>
      (let? l := dict_get limits p in
       let? tl := limits_of limits rest in
       Ok (l :: tl))%result
  end.

(** [melt(id_vars='Pollutant', var_name='Type', value_name='Value')]: the
    value columns are stacked one after the other, each keeping the row
    order of the frame. *)
Definition melt (df : list wide_row) : list long_row :=
  map (fun r => {| Pollutant := w_pollutant r; Type_ := "Predicted";
                   Value := w_predicted r |}) df
  ++ map (fun r => {| Pollutant := w_pollutant r; Type_ := "Safe Limit";
                      Value := w_safe_limit r |}) df.

(** Lines 151-158 together. *)
Definition chart_df_long (limits : list (string * float))
           (predicted_pollutants : list float) : result (list long_row) :=
  (let? safe := limits_of limits pollutants in
   let? chart_df := data_frame pollutants predicted_pollutants safe in
   Ok (melt chart_df))%result.

Definition label_threshold : float := 10%float.

(** The text channel of the label layer. *)
Inductive text_value : Type :=
| Field (format : string) (v : float)
| Constant (s : string).

(** [alt.condition(alt.datum.Value >= label_threshold,
    alt.Text('Value:Q', format='.2f'), alt.value(''))] on one datum. *)
Definition text_of (r : long_row) : text_value :=
  if (label_threshold <=? Value r)%float
  then Field ".2f" (Value r)
  else Constant "".

(** What reaches the marks: Altair writes a value that is NaN or
    infinite as null, and a mark whose quantitative channel ([y='Value:Q']
    in both layers) is null is left out of the chart. *)
Definition drawn (r : long_row) : bool := is_finite (Value r).

(** A label is printed for a row when its mark is in the chart and its
    text is not the empty constant. *)
Definition has_label (r : long_row) : bool :=
  (drawn r
   && match text_of r with
      | Field _ _ => true
      | Constant s => negb (String.eqb s "")
      end)%bool.

(** [bar + text]: both layers are given the same rows and draw those
    with a value; a mark of the text layer is the row with its text. *)
Record chart : Type := {
  bar_layer : list long_row;
  text_layer : list (long_row * text_value)
}.

Definition final_chart (chart_df_long : list long_row) : chart :=
  {| bar_layer := filter drawn chart_df_long;
     text_layer := map (fun r => (r, text_of r))
                       (filter drawn chart_df_long) |}.

(** The loop of lines 206-209 over [zip(ps, predicted, safe)]. *)
Definition invisible_pollutants (ps : list string) (predicted safe : list float)
  : list string :=
  map fst
      (filter (fun t => ((fst (snd t) <? label_threshold)
                         && (snd (snd t) <? label_threshold))%float%bool)
              (zip ps (zip predicted safe))).

(** Lines 206-209, with the list of limits the third argument of the
    [zip] is built from. *)
Definition detect_low_visibility (limits : list (string * float))
           (predicted_pollutants : list float) : result (list string) :=
  (let? safe := limits_of limits pollutants in
   Ok (invisible_pollutants pollutants predicted_pollutants safe))%result.

Definition note_head : string :=
  "<b>Note:</b> The following pollutants have predicted and safe limit values that are very small compared to the scale of the chart, "
  ++ "so their bars may not be visible or may appear as a thin line. "
  ++ "This usually happens when concentrations are close to zero or much lower than other pollutants.<br>"
  ++ "Please refer to the numeric predictions above for exact values.<br>"
  ++ "<b>Pollutants affected:</b> ".

(** [", ".join(...)] *)
Fixpoint join (sep : string) (parts : list string) : string :=
  match parts with
  | [] => ""
  | [s] => s
  | s :: rest => s ++ sep ++ join sep rest
  end.

Definition bold (p : string) : string := "<b>" ++ p ++ "</b>".

Definition note (invisible : list string) : string :=
  note_head ++ join ", " (map bold invisible) ++ ".".

End Chart.

(** ** The page and the script that fills it (lines 101-220)

    Streamlit draws an element when the call that makes it runs, so what
    was drawn before an exception stays on the page. A script step takes
    the page drawn so far and gives the page after it, with its result. *)

Module Pipeline.
Import Frame.

Inductive element : Type :=
| Heading (station_id : string) (year : Z)
| MetricCard (column : nat) (c : Comparator.card)
| ChartTitle
| AltairChart (c : Chart.chart)
| Markdown (body : string).

Definition page : Type := list element.

Definition script (A : Type) : Type := page -> page * result A.

Definition ret {A : Type} (a : A) : script A := fun pg => (pg, Ok a).

Definition seq {A B : Type} (m : script A) (k : A -> script B) : script B :=
  fun pg =>
    match m pg with
    | (pg', Ok a) => k a pg'
    | (pg', Raise e) => (pg', Raise e)
    end.

Definition draw (el : element) : script unit :=
  fun pg => ((pg ++ [el])%list, Ok tt).

Definition lift {A : Type} (r : result A) : script A := fun pg => (pg, r).

Declare Scope script_scope.
Delimit Scope script_scope with script.
Notation "x <- m ;; k" := (seq m (fun x => k))
  (at level 61, m at next level, right associativity) : script_scope.
Notation "m ;; k" := (seq m (fun _ => k))
  (at level 61, right associativity) : script_scope.

Fixpoint for_each {A : Type} (body : A -> script unit) (xs : list A)
  : script unit :=
  match xs with
  | [] => ret tt
  | x :: rest => (body x ;; for_each body rest)%script
  end.

(** The loop of lines 119-147: one card per pair of the [zip], drawn in
    column [i % 3]. *)
Definition metric_loop (limits : list (string * float))
           (predicted_pollutants : list float) : script unit :=
  for_each
    (fun t =>
       let '(i, (p, val)) := t in
       (c <- lift (Comparator.metric limits p val) ;;
        draw (MetricCard (Nat.modulo i 3) c))%script)
    (enumerate (zip pollutants predicted_pollutants)).

(** Lines 150-203. *)
Definition chart_block (limits : list (string * float))
           (predicted_pollutants : list float) : script unit :=
  (draw ChartTitle ;;
   chart_df_long <- lift (Chart.chart_df_long limits predicted_pollutants) ;;
   draw (AltairChart (Chart.final_chart chart_df_long)))%script.

(** Lines 206-220. *)
Definition note_block (limits : list (string * float))
           (predicted_pollutants : list float) : script unit :=
  (invisible_pollutants <-
     lift (Chart.detect_low_visibility limits predicted_pollutants) ;;
   match invisible_pollutants with
   | [] => ret tt
   | _ => draw (Markdown (Chart.note invisible_pollutants))
   end)%script.

Section Model.

(** The two artefacts loaded at start-up: the regressor, of which the
    script only calls [predict], and the list of training columns. *)
Variable model_predict : frame -> list (list float).
Variable model_cols : list string.

(** [model.predict(input_encoded)[0]] *)
Definition first_row (rows : list (list float)) : result (list float) :=
  match rows with
  | [] => Raise IndexError
  | row :: _ => Ok row
  end.

(** Lines 102-110. *)
Definition predicted_row (year_input : Z) (station_id : string)
  : result (list float) :=
  (let? input_encoded := Encoder.encode year_input station_id model_cols in
   first_row (model_predict input_encoded))%result.

(** The body of [if predict_clicked:]. *)
Definition on_predict (year_input : Z) (station_id : string) : script unit :=
  (predicted_pollutants <- lift (predicted_row year_input station_id) ;;
   draw (Heading station_id year_input) ;;
   metric_loop safe_limits predicted_pollutants ;;
   chart_block safe_limits predicted_pollutants ;;
   note_block safe_limits predicted_pollutants)%script.

End Model.

(** What [model.predict] may answer: it raises, or it returns an array of
    one dimension, whose [[0]] is a number, or of two, whose [[0]] is a
    row. *)
Inductive answer : Type :=
| Raised (e : exn)
| Array1 (values : list float)
| Array2 (rows : list (list float)).

(** The body of [if predict_clicked:] for such a model. A number for
    [predicted_pollutants] passes the heading and stops at the [zip] of
    the loop, which cannot iterate over it. *)
Definition request (model : frame -> answer) (model_cols : list string)
           (year_input : Z) (station_id : string) : script unit :=
  (input_encoded <-
     lift (Encoder.encode year_input station_id model_cols) ;;
   match model input_encoded with
   | Raised e => lift (Raise e)
   | Array1 [] => lift (Raise IndexError)
   | Array1 (_ :: _) =>
       draw (Heading station_id year_input) ;;
       lift (Raise TypeError)
   | Array2 rows =>
       predicted_pollutants <- lift (first_row rows) ;;
       draw (Heading station_id year_input) ;;
       metric_loop safe_limits predicted_pollutants ;;
       chart_block safe_limits predicted_pollutants ;;
       note_block safe_limits predicted_pollutants
   end)%script.

(** The cards on a page, in the order they were drawn. *)
Fixpoint cards (pg : page) : list Comparator.card :=
  match pg with
  | [] => []
  | MetricCard _ c :: rest => c :: cards rest
  | _ :: rest => cards rest
  end.

Definition is_chart (el : element) : bool :=
  match el with
  | AltairChart _ => true
  | _ => false
  end.

Definition is_note (el : element) : bool :=
  match el with
  | Markdown _ => true
  | _ => false
  end.

(** The card of a pollutant, when [metric] gives one. *)
Definition card_of (r : result Comparator.card) : Comparator.card :=
  match r with
  | Ok c => c
  | Raise _ =>
      {| Comparator.card_pollutant := ""; Comparator.card_value := "";
         Comparator.card_arrow := ""; Comparator.card_delta_str := "";
         Comparator.card_delta_color := "" |}
  end.

(** The element the loop draws for one item of the enumeration. *)
Definition drawn_card (t : nat * (string * float)) : element :=
  MetricCard
    (Nat.modulo (fst t) 3)
    (card_of (Comparator.metric safe_limits (fst (snd t)) (snd (snd t)))).

End Pipeline.

(** ** Vocabulary of the statements *)

(** Shapes of binary64 values, on their unpacked form. *)
Module FloatShape.

(** A float that is not zero and not NaN, with its sign and a lower bound
    on its binary weight (the exponent of the power of two above it). *)
Definition solid (s : bool) (w : Z) (x : spec_float) : Prop :=
  match x with
  | S754_finite s' m e => s' = s /\ w <= Z.pos (digits2_pos m) + e
  | S754_infinity s' => s' = s
  | _ => False
  end.

(** Strictly below zero. *)
Definition is_neg (x : spec_float) : bool :=
  match x with
  | S754_infinity s => s
  | S754_finite s _ _ => s
  | _ => false
  end.

(** A finite non-zero float has binary weight at least [w]. *)
Definition big (w : Z) (x : spec_float) : Prop :=
  match x with
  | S754_finite _ m e => w <= Z.pos (digits2_pos m) + e
  | _ => True
  end.

(** A binary64 constant that is positive, normal and of moderate size. *)
Definition moderate (c : float) : Prop :=
  exists (m : positive) (e : Z),
    Prim2SF c = S754_finite false m e
    /\ Z.pos (digits2_pos m) = 53 /\ -100 <= e <= 100.

End FloatShape.

(** What the specification says of the chart and of the note, in its own
    words. *)
Module Spec.

Definition row_key (r : Chart.long_row) : string * string :=
  (Chart.Pollutant r, Chart.Type_ r).

(** Both rows of the first pollutant, then both rows of the second, ... *)
Definition pollutant_major : list (string * string) :=
  flat_map (fun p => [(p, "Predicted"); (p, "Safe Limit")]) pollutants.

(** The Predicted row of every pollutant, then the Safe Limit row of every
    pollutant. *)
Definition type_major : list (string * string) :=
  (map (fun p => (p, "Predicted")) pollutants
   ++ map (fun p => (p, "Safe Limit")) pollutants)%list.

(** The prediction of pollutant [p]: the value at its position. *)
Fixpoint lookup {A : Type} (p : string) (l : list (string * A)) : option A :=
  match l with
  | [] => None
  | (k, v) :: rest => if String.eqb k p then Some v else lookup p rest
  end.

Definition predicted_of (predicted : list float) (p : string) : option float :=
  lookup p (zip pollutants predicted).

(** A pollutant is of low visibility when its prediction and its safe limit
    are both below the threshold. *)
Definition low_visibility (threshold : float) (predicted : list float)
           (p : string) : bool :=
  match predicted_of predicted p, lookup p safe_limits with
  | Some pred, Some safe =>
      ((pred <? threshold) && (safe <? threshold))%float%bool
  | _, _ => false
  end.

(** The text left after a prefix, when the string starts with it. *)
Fixpoint drop_prefix (pre s : string) : option string :=
  match pre, s with
  | EmptyString, _ => Some s
  | String a pre', String b s' =>
      if Ascii.eqb a b then drop_prefix pre' s' else None
  | String _ _, EmptyString => None
  end.

Fixpoint rev_string (s acc : string) : string :=
  match s with
  | EmptyString => acc
  | String a s' => rev_string s' (String a acc)
  end.

(** The text left before a suffix, when the string ends with it. *)
Definition drop_suffix (suf s : string) : option string :=
  match drop_prefix (rev_string suf "") (rev_string s "") with
  | Some r => Some (rev_string r "")
  | None => None
  end.

(** The pieces of a text between the separators [", "]; [cur] is the
    piece being read. *)
Fixpoint split_comma (s cur : string) : list string :=
  match s with
  | EmptyString => [cur]
  | String "," (String " " rest) => cur :: split_comma rest ""
  | String c rest => split_comma rest (cur ++ String c "")
  end.

(** The name inside [<b>] and [</b>]. *)
Definition unbold (s : string) : option string :=
  match drop_prefix "<b>" s with
  | Some t => drop_suffix "</b>" t
  | None => None
  end.

Fixpoint all_some {A : Type} (l : list (option A)) : option (list A) :=
  match l with
  | [] => Some []
  | Some a :: rest =>
      match all_some rest with
      | Some tl => Some (a :: tl)
      | None => None
      end
  | None :: _ => None
  end.

(** The pollutants a note lists, read back from its text: after the
    fixed head and before the final full stop, the names in bold
    separated by [", "]. A text of another shape lists nothing. *)
Definition listed_names (text : string) : option (list string) :=
  match drop_prefix Chart.note_head text with
  | Some body =>
      match drop_suffix "." body with
      | Some listing => all_some (map unbold (split_comma listing ""))
      | None => None
      end
  | None => None
  end.

(** The rows of a pollutant carry no label. *)
Definition unlabelled (rows : list Chart.long_row) (p : string) : Prop :=
  forall r, In r rows -> Chart.Pollutant r = p -> Chart.has_label r = false.

End Spec.

(** What is read off a feature vector and off a page. *)
Module Observe.
Import Frame Encoder Pipeline.

(** The indicator columns of a vector that are set. *)
Definition set_indicators (fv : frame) : list string :=
  map fst (filter (fun t => (is_indicator (fst t) && (snd t =? 1))%bool) fv).

(** The cards drawn in column [k], in the order they were drawn. *)
Fixpoint column_cards (k : nat) (pg : page) : list Comparator.card :=
  match pg with
  | [] => []
  | MetricCard j c :: rest =>
      if Nat.eqb j k then c :: column_cards k rest else column_cards k rest
  | _ :: rest => column_cards k rest
  end.
End Observe.

(** * Properties *)

(** ** The encoder *)

Module EncoderFacts.
Import Frame Encoder.

Lemma has_column_cons (col c : string) (x : Z) (df : frame) :
  has_column col ((c, x) :: df) = (String.eqb col c || has_column col df)%bool.
Proof. reflexivity. Qed.

Lemma get_absent (col : string) (df : frame) :
  has_column col df = false -> get col df = Raise (KeyError col).
Proof.
  induction df as [|[c x] df IH]; intros H; [reflexivity|].
  rewrite has_column_cons in H. apply orb_false_elim in H as [Hc Hd].
  cbn [get]. rewrite String.eqb_sym, Hc. auto.
Qed.

Lemma get_set_column_same (col : string) (v : Z) (df : frame) :
  get col (set_column col v df) = Ok v.
Proof.
  induction df as [|[c x] df IH]; cbn [set_column get].
  - now rewrite String.eqb_refl.
  - destruct (String.eqb c col) eqn:E; cbn [get]; now rewrite E.
Qed.

Lemma get_set_column_other (col c : string) (v : Z) (df : frame) :
  String.eqb c col = false -> get col (set_column c v df) = get col df.
Proof.
  intros Hne. induction df as [|[c' x] df IH]; cbn [set_column get].
  - now rewrite Hne.
  - destruct (String.eqb c' c) eqn:E; cbn [get].
    + apply String.eqb_eq in E. subst c'. now rewrite Hne.
    + now rewrite IH.
Qed.

Lemma has_column_set_column (col c : string) (v : Z) (df : frame) :
  has_column col (set_column c v df)
  = (String.eqb col c || has_column col df)%bool.
Proof.
  induction df as [|[c' x] df IH]; cbn [set_column].
  - reflexivity.
  - destruct (String.eqb c' c) eqn:E.
    + rewrite !has_column_cons. apply String.eqb_eq in E. subst c'.
      now rewrite orb_assoc, orb_diag.
    + rewrite !has_column_cons, IH.
      now rewrite !orb_assoc, (orb_comm (String.eqb col c')).
Qed.

(** What a lookup sees after the loop: the columns that were there keep
    their value, the ones the loop added hold 0. *)
Lemma get_add_missing (model_cols : list string) :
  forall (df : frame) (col : string),
    get col (add_missing model_cols df)
    = if has_column col df then get col df
      else if existsb (String.eqb col) model_cols then Ok 0
           else Raise (KeyError col).
Proof.
  unfold add_missing.
  induction model_cols as [|a cols IH]; intros df col; cbn [fold_left existsb].
  - destruct (has_column col df) eqn:H; [reflexivity|]. now apply get_absent.
  - rewrite IH. destruct (has_column a df) eqn:Ha; cbn [negb].
    + destruct (has_column col df) eqn:Hc; [reflexivity|].
      destruct (String.eqb col a) eqn:E; [|reflexivity].
      apply String.eqb_eq in E. congruence.
    + rewrite has_column_set_column.
      destruct (String.eqb col a) eqn:E; cbn [orb].
      * apply String.eqb_eq in E. subst a. rewrite Ha.
        apply get_set_column_same.
      * rewrite get_set_column_other by (now rewrite String.eqb_sym).
        reflexivity.
Qed.

Lemma select_map (f : string -> Z) (df : frame) (cols : list string) :
  (forall c, In c cols -> get c df = Ok (f c)) ->
  select cols df = Ok (map (fun c => (c, f c)) cols).
Proof.
  induction cols as [|c cols IH]; intros H; [reflexivity|].
  cbn [select map]. rewrite (H c (or_introl eq_refl)). cbn [bind].
  rewrite IH by (intros c' Hc'; apply H; now right). reflexivity.
Qed.

(** [encode] never raises, and its vector is the schema with [cell]. *)
Lemma encode_eq (year_input : Z) (station_id : string)
      (model_cols : list string) :
  encode year_input station_id model_cols
  = Ok (map (fun c => (c, cell year_input station_id c)) model_cols).
Proof.
  unfold encode. apply select_map. intros c Hc.
  rewrite get_add_missing. unfold get_dummies, cell.
  rewrite !has_column_cons. cbn [has_column columns map existsb get].
  rewrite (String.eqb_sym "year" c), (String.eqb_sym (dummy_column _) c).
  destruct (String.eqb c "year"); [reflexivity|].
  destruct (String.eqb c (dummy_column station_id)); [reflexivity|].
  cbn [orb].
  replace (existsb (String.eqb c) model_cols) with true; [reflexivity|].
  symmetry. apply existsb_exists. exists c. split; [assumption|].
  apply String.eqb_refl.
Qed.

Lemma columns_map (f : string -> Z) (cols : list string) :
  columns (map (fun c => (c, f c)) cols) = cols.
Proof.
  unfold columns. rewrite map_map. cbn [fst]. apply map_id.
Qed.

Lemma in_map_cell (f : string -> Z) (cols : list string) (c : string) (x : Z) :
  In (c, x) (map (fun c => (c, f c)) cols) <-> In c cols /\ x = f c.
Proof.
  rewrite in_map_iff. split.
  - intros [c' [E H]]. inversion E; subst. auto.
  - intros [H ->]. exists c. auto.
Qed.

Lemma get_map_cell (f : string -> Z) (cols : list string) (c : string) :
  In c cols -> get c (map (fun c => (c, f c)) cols) = Ok (f c).
Proof.
  induction cols as [|a cols IH]; intros H; [destruct H|].
  cbn [map get]. destruct (String.eqb a c) eqn:E.
  - apply String.eqb_eq in E. now subst.
  - destruct H as [->|H]; [now rewrite String.eqb_refl in E|]. auto.
Qed.

Lemma cell_indicator (year_input : Z) (station_id col : string) :
  is_indicator col = true ->
  cell year_input station_id col
  = if String.eqb col (dummy_column station_id) then 1 else 0.
Proof.
  intros H. unfold cell. destruct (String.eqb col "year") eqn:E; [|reflexivity].
  apply String.eqb_eq in E. subst col. discriminate H.
Qed.

Lemma dummy_column_indicator (station_id : string) :
  is_indicator (dummy_column station_id) = true.
Proof.
  unfold is_indicator, dummy_column, dummy_prefix. cbn.
  now destruct station_id.
Qed.

(** C1: for a station whose indicator column is in the schema, [encode]
    returns a vector whose columns are the schema in its order, whose
    [year] entry is the input year, and where the indicator column of the
    station holds 1 and every other indicator column holds 0. *)
Theorem encode_known_station (year_input : Z) (station_id : string)
        (model_cols : list string) :
  In (dummy_column station_id) model_cols ->
  exists fv,
    encode year_input station_id model_cols = Ok fv
    /\ columns fv = model_cols
    /\ (forall x, In ("year", x) fv -> x = year_input)
    /\ (In "year" model_cols -> get "year" fv = Ok year_input)
    /\ In (dummy_column station_id, 1) fv
    /\ (forall c x, In (c, x) fv -> is_indicator c = true ->
                    (c = dummy_column station_id /\ x = 1)
                    \/ (c <> dummy_column station_id /\ x = 0)).
Proof.
  intros Hin. eexists. split; [apply encode_eq|].
  split; [apply columns_map|].
  split; [|split; [|split]].
  - intros x H. apply in_map_cell in H as [_ ->]. reflexivity.
  - intros H. now rewrite get_map_cell.
  - apply in_map_cell. split; [assumption|].
    rewrite cell_indicator by apply dummy_column_indicator.
    now rewrite String.eqb_refl.
  - intros c x H Hind. apply in_map_cell in H as [_ ->].
    rewrite cell_indicator by assumption.
    destruct (String.eqb c (dummy_column station_id)) eqn:E.
    + left. apply String.eqb_eq in E. auto.
    + right. apply String.eqb_neq in E. auto.
Qed.

Lemma encode_known_station_witness :
  exists fv,
    encode 2022 "3" ["year"; "id_1"; "id_2"; "id_3"] = Ok fv
    /\ columns fv = ["year"; "id_1"; "id_2"; "id_3"]
    /\ (forall x, In ("year", x) fv -> x = 2022)
    /\ (In "year" ["year"; "id_1"; "id_2"; "id_3"] -> get "year" fv = Ok 2022)
    /\ In (dummy_column "3", 1) fv
    /\ (forall c x, In (c, x) fv -> is_indicator c = true ->
                    (c = dummy_column "3" /\ x = 1)
                    \/ (c <> dummy_column "3" /\ x = 0)).
Proof.
  apply (encode_known_station 2022 "3" ["year"; "id_1"; "id_2"; "id_3"]).
  simpl. auto.
Defined.

(** C2: for a station whose indicator column is not in the schema,
    [encode] raises nothing and returns a vector whose columns are the
    schema in its order and whose indicator columns all hold 0. *)
Theorem encode_unknown_station (year_input : Z) (station_id : string)
        (model_cols : list string) :
  ~ In (dummy_column station_id) model_cols ->
  exists fv,
    encode year_input station_id model_cols = Ok fv
    /\ columns fv = model_cols
    /\ (forall c x, In (c, x) fv -> is_indicator c = true -> x = 0).
Proof.
  intros Hnot. eexists. split; [apply encode_eq|].
  split; [apply columns_map|].
  intros c x H Hind. apply in_map_cell in H as [Hc ->].
  rewrite cell_indicator by assumption.
  destruct (String.eqb c (dummy_column station_id)) eqn:E; [|reflexivity].
  apply String.eqb_eq in E. subst c. contradiction.
Qed.

Lemma encode_unknown_station_witness :
  exists fv,
    encode 2022 "30" ["year"; "id_1"; "id_2"; "id_3"] = Ok fv
    /\ columns fv = ["year"; "id_1"; "id_2"; "id_3"]
    /\ (forall c x, In (c, x) fv -> is_indicator c = true -> x = 0).
Proof.
  apply (encode_unknown_station 2022 "30" ["year"; "id_1"; "id_2"; "id_3"]).
  simpl. intros [H|[H|[H|[H|[]]]]]; discriminate H.
Defined.

End EncoderFacts.

(** ** Binary64 arithmetic

    Facts about the operations of the script on floats, from the
    specification of the primitive operations on their unpacked form. *)

Module FloatFacts.
Import FloatShape.

(** Number of binary digits. *)
Lemma digits2_pos_bounds (p : positive) :
  2 ^ (Z.pos (digits2_pos p) - 1) <= Z.pos p < 2 ^ Z.pos (digits2_pos p).
Proof.
  induction p as [p IH|p IH|]; cbn [digits2_pos].
  - rewrite Pos2Z.inj_succ. replace (Z.succ (Z.pos (digits2_pos p)) - 1)
      with (Z.succ (Z.pos (digits2_pos p) - 1)) by lia.
    rewrite !Z.pow_succ_r by lia. lia.
  - rewrite Pos2Z.inj_succ. replace (Z.succ (Z.pos (digits2_pos p)) - 1)
      with (Z.succ (Z.pos (digits2_pos p) - 1)) by lia.
    rewrite !Z.pow_succ_r by lia. lia.
  - cbn. lia.
Qed.

Lemma Zdigits2_bounds (m : Z) :
  0 < m -> 2 ^ (Zdigits2 m - 1) <= m < 2 ^ Zdigits2 m.
Proof.
  destruct m as [|p|p]; try lia. intros _. apply digits2_pos_bounds.
Qed.

Lemma Zdigits2_pos (m : Z) : 0 < m -> 0 < Zdigits2 m.
Proof. destruct m; cbn; lia. Qed.

Lemma Zdigits2_unique (m k : Z) :
  2 ^ (k - 1) <= m < 2 ^ k -> 0 < k -> Zdigits2 m = k.
Proof.
  intros [Hlo Hhi] Hk.
  assert (Hm : 0 < m) by (pose proof (Z.pow_pos_nonneg 2 (k - 1)); lia).
  pose proof (Zdigits2_bounds m Hm) as [Dlo Dhi].
  pose proof (Zdigits2_pos m Hm) as Dpos.
  destruct (Z.lt_trichotomy (Zdigits2 m) k) as [H|[H|H]]; [|assumption|].
  - assert (2 ^ Zdigits2 m <= 2 ^ (k - 1)) by (apply Z.pow_le_mono_r; lia). lia.
  - assert (2 ^ k <= 2 ^ (Zdigits2 m - 1)) by (apply Z.pow_le_mono_r; lia). lia.
Qed.

Lemma Zdigits2_lower (m k : Z) : 0 <= k -> 2 ^ k <= m -> k + 1 <= Zdigits2 m.
Proof.
  intros Hk H.
  assert (Hm : 0 < m) by (pose proof (Z.pow_pos_nonneg 2 k); lia).
  pose proof (Zdigits2_bounds m Hm) as [_ Dhi].
  pose proof (Zdigits2_pos m Hm).
  destruct (Z.le_gt_cases (k + 1) (Zdigits2 m)); [assumption|].
  assert (2 ^ Zdigits2 m <= 2 ^ k) by (apply Z.pow_le_mono_r; lia). lia.
Qed.

Lemma Zdigits2_mono (a b : Z) : 0 < a -> a <= b -> Zdigits2 a <= Zdigits2 b.
Proof.
  intros Ha Hab. pose proof (Zdigits2_bounds a Ha) as [Lo _].
  pose proof (Zdigits2_pos a Ha).
  pose proof (Zdigits2_lower b (Zdigits2 a - 1)). lia.
Qed.

Lemma Zdigits2_div_pow2 (m n : Z) :
  0 < m -> 0 <= n < Zdigits2 m -> Zdigits2 (m / 2 ^ n) = Zdigits2 m - n.
Proof.
  intros Hm Hn. pose proof (Zdigits2_bounds m Hm) as [Lo Hi].
  assert (P : 0 < 2 ^ n) by (apply Z.pow_pos_nonneg; lia).
  apply Zdigits2_unique; [|lia]. split.
  - apply Z.div_le_lower_bound; [assumption|].
    rewrite <- Z.pow_add_r by lia.
    replace (n + (Zdigits2 m - n - 1)) with (Zdigits2 m - 1) by lia.
    assumption.
  - apply Z.div_lt_upper_bound; [assumption|].
    rewrite <- Z.pow_add_r by lia.
    replace (n + (Zdigits2 m - n)) with (Zdigits2 m) by lia.
    assumption.
Qed.

Lemma Zdigits2_mul_pow2 (m n : Z) :
  0 < m -> 0 <= n -> Zdigits2 (m * 2 ^ n) = Zdigits2 m + n.
Proof.
  intros Hm Hn. pose proof (Zdigits2_bounds m Hm) as [Lo Hi].
  pose proof (Zdigits2_pos m Hm).
  assert (P : 0 < 2 ^ n) by (apply Z.pow_pos_nonneg; lia).
  apply Zdigits2_unique; [|lia]. split.
  - replace (Zdigits2 m + n - 1) with ((Zdigits2 m - 1) + n) by lia.
    rewrite Z.pow_add_r by lia. nia.
  - rewrite Z.pow_add_r by lia. nia.
Qed.

(** Right shifts of the rounding record. *)
Lemma shr_1_m (r : shr_record) :
  0 <= shr_m r -> shr_m (shr_1 r) = shr_m r / 2.
Proof.
  destruct r as [m rb sb]. cbn [shr_m]. intros H.
  destruct m as [|[p|p|]|p]; cbn [shr_1 shr_m orb]; try lia;
    try reflexivity.
  - apply Z.div_unique with (r := 1); lia.
  - apply Z.div_unique with (r := 0); lia.
Qed.

Lemma iter_shr_1_m (p : positive) :
  forall r, 0 <= shr_m r ->
            shr_m (iter_pos shr_1 p r) = shr_m r / 2 ^ Z.pos p.
Proof.
  assert (nonneg : forall a b, 0 <= a -> 0 < b -> 0 <= a / b)
    by (intros; apply Z.div_pos; lia).
  induction p as [p IH|p IH|]; intros r Hr; cbn [iter_pos].
  - assert (H1 : 0 <= shr_m (shr_1 r))
      by (rewrite shr_1_m by lia; apply nonneg; lia).
    assert (P : 0 < 2 ^ Z.pos p) by (apply Z.pow_pos_nonneg; lia).
    assert (H2 : 0 <= shr_m (iter_pos shr_1 p (shr_1 r)))
      by (rewrite IH by lia; apply nonneg; lia).
    assert (E : 2 ^ Z.pos p~1 = 2 * (2 ^ Z.pos p * 2 ^ Z.pos p)).
    { replace (Z.pos p~1) with (1 + (Z.pos p + Z.pos p)) by lia.
      rewrite !Z.pow_add_r by lia. reflexivity. }
    rewrite IH, IH, shr_1_m, E by lia.
    rewrite !Z.div_div by lia. reflexivity.
  - assert (P : 0 < 2 ^ Z.pos p) by (apply Z.pow_pos_nonneg; lia).
    assert (H2 : 0 <= shr_m (iter_pos shr_1 p r))
      by (rewrite IH by lia; apply nonneg; lia).
    assert (E : 2 ^ Z.pos p~0 = 2 ^ Z.pos p * 2 ^ Z.pos p).
    { replace (Z.pos p~0) with (Z.pos p + Z.pos p) by lia.
      rewrite Z.pow_add_r by lia. reflexivity. }
    rewrite IH, IH, E by lia. rewrite Z.div_div by lia. reflexivity.
  - rewrite shr_1_m by lia. reflexivity.
Qed.

Lemma shr_record_of_loc_m (m : Z) (l : location) :
  shr_m (shr_record_of_loc m l) = m.
Proof. destruct l as [|[]]; reflexivity. Qed.

Lemma fexp_eq (k : Z) : fexp prec emax k = Z.max (k - 53) (-1074).
Proof. reflexivity. Qed.

(** The first step of rounding keeps a number above the subnormal range
    positive and at the same binary weight. *)
Lemma shr_fexp_weight (m e : Z) (l : location) :
  0 < m -> -1074 < Zdigits2 m + e ->
  0 < shr_m (fst (shr_fexp prec emax m e l))
  /\ Zdigits2 (shr_m (fst (shr_fexp prec emax m e l)))
     + snd (shr_fexp prec emax m e l) = Zdigits2 m + e.
Proof.
  intros Hm Hw. unfold shr_fexp, shr. rewrite fexp_eq.
  pose proof (Zdigits2_bounds m Hm) as [Lo Hi].
  pose proof (Zdigits2_pos m Hm) as Dpos.
  destruct (Z.max (Zdigits2 m + e - 53) (-1074) - e) as [|n|n] eqn:En;
    cbn [fst snd]; rewrite ?shr_record_of_loc_m; try (split; [lia|reflexivity]).
  rewrite iter_shr_1_m by (rewrite shr_record_of_loc_m; lia).
  rewrite shr_record_of_loc_m.
  assert (Hn : 0 <= Z.pos n < Zdigits2 m) by lia.
  rewrite Zdigits2_div_pow2 by lia. split; [|lia].
  apply Z.div_str_pos. split; [apply Z.pow_pos_nonneg; lia|].
  transitivity (2 ^ (Zdigits2 m - 1)); [|assumption].
  apply Z.pow_le_mono_r; lia.
Qed.

Lemma round_nearest_even_bounds (m : Z) (l : location) :
  m <= round_nearest_even m l <= m + 1.
Proof.
  destruct l as [|[]]; cbn [round_nearest_even]; try lia.
  destruct (Z.even m); lia.
Qed.

Lemma binary_round_aux_solid (s : bool) (m e : Z) (l : location) (w : Z) :
  0 < m -> -1074 < w -> w <= Zdigits2 m + e ->
  solid s w (binary_round_aux prec emax s m e l).
Proof.
  intros Hm Hw Hwe. unfold binary_round_aux.
  pose proof (shr_fexp_weight m e l Hm ltac:(lia)) as [P1 W1].
  destruct (shr_fexp prec emax m e l) as [r1 e1]. cbn [fst snd] in P1, W1.
  pose proof (round_nearest_even_bounds (shr_m r1) (loc_of_shr_record r1)) as B.
  set (m1 := round_nearest_even (shr_m r1) (loc_of_shr_record r1)) in *.
  assert (D1 : Zdigits2 (shr_m r1) <= Zdigits2 m1)
    by (apply Zdigits2_mono; lia).
  pose proof (shr_fexp_weight m1 e1 loc_Exact ltac:(lia) ltac:(lia)) as [P2 W2].
  destruct (shr_fexp prec emax m1 e1 loc_Exact) as [r2 e2].
  cbn [fst snd] in P2, W2.
  destruct (shr_m r2) as [|p|p]; try lia.
  cbn [Zdigits2] in W2.
  destruct (e2 <=? emax - prec); cbn [solid]; [split|];
    [reflexivity|lia|reflexivity].
Qed.

Lemma solid_big (s : bool) (w : Z) (x : spec_float) : solid s w x -> big w x.
Proof. destruct x; cbn; tauto. Qed.

Lemma solid_is_neg (s : bool) (w : Z) (x : spec_float) :
  solid s w x -> is_neg x = s.
Proof. destruct x; cbn; tauto. Qed.

Lemma SFltb_zero (x : spec_float) : SFltb x (S754_zero false) = is_neg x.
Proof. destruct x as [s|s| |s m e]; try destruct s; reflexivity. Qed.

Lemma valid_finite (s : bool) (m : positive) (e : Z) :
  valid_binary (S754_finite s m e) = true ->
  -1074 <= e /\ Z.pos (digits2_pos m) <= 53.
Proof.
  cbn [SpecFloat.valid_binary]. unfold bounded, canonical_mantissa.
  rewrite fexp_eq. intros H. apply andb_prop in H as [H _].
  apply Z.eqb_eq in H. lia.
Qed.

Lemma Zdigits2_mul (a b : Z) :
  0 < a -> 0 < b -> Zdigits2 a + Zdigits2 b - 1 <= Zdigits2 (a * b).
Proof.
  intros Ha Hb.
  pose proof (Zdigits2_bounds a Ha) as [La _].
  pose proof (Zdigits2_bounds b Hb) as [Lb _].
  pose proof (Zdigits2_pos a Ha). pose proof (Zdigits2_pos b Hb).
  pose proof (Zdigits2_lower (a * b) (Zdigits2 a - 1 + (Zdigits2 b - 1))) as H1.
  rewrite Z.pow_add_r in H1 by lia.
  assert (0 < 2 ^ (Zdigits2 a - 1)) by (apply Z.pow_pos_nonneg; lia).
  assert (0 < 2 ^ (Zdigits2 b - 1)) by (apply Z.pow_pos_nonneg; lia).
  assert (2 ^ (Zdigits2 a - 1) * 2 ^ (Zdigits2 b - 1) <= a * b) by nia.
  lia.
Qed.

Section Constant.

(** A positive finite constant with a full mantissa. *)
Variables (mc : positive) (ec : Z).
Hypothesis mc_digits : Z.pos (digits2_pos mc) = 53.

(** Multiplying by a constant that is at least 1 keeps the sign: the
    product of a non-zero float cannot round to zero. *)
Lemma SFmul_is_neg (x : spec_float) :
  -52 <= ec ->
  valid_binary x = true ->
  is_neg (SF64mul x (S754_finite false mc ec)) = is_neg x.
Proof.
  intros Hec Hv. destruct x as [s|s| |s m e]; cbn [SF64mul SFmul is_neg];
    rewrite ?xorb_false_r; try reflexivity.
  apply valid_finite in Hv as [He Hd].
  pose proof (Zdigits2_mul (Z.pos m) (Z.pos mc) eq_refl eq_refl) as Hm.
  cbn [Zdigits2] in Hm.
  apply (solid_is_neg s (-1073)).
  apply binary_round_aux_solid; try lia.
  change (Z.pos (m * mc)) with (Z.pos m * Z.pos mc).
  pose proof (Zdigits2_pos (Z.pos m) eq_refl). cbn [Zdigits2] in *. lia.
Qed.

(** Dividing by the constant keeps the sign as long as the quotient stays
    above the subnormal range. *)
Lemma SFdiv_is_neg (x : spec_float) :
  valid_binary x = true -> big (ec - 968) x ->
  is_neg (SF64div x (S754_finite false mc ec)) = is_neg x.
Proof.
  intros Hv Hb. destruct x as [s|s| |s m e]; cbn [SF64div SFdiv is_neg];
    rewrite ?xorb_false_r; try reflexivity.
  apply valid_finite in Hv as [He Hd]. cbn [big] in Hb.
  unfold SFdiv_core_binary. cbn [Zdigits2]. rewrite fexp_eq, mc_digits.
  set (d := Z.pos (digits2_pos m)) in *.
  assert (Hd0 : 0 < d) by (subst d; lia).
  replace (Z.min (Z.max (d + e - (53 + ec) - 53) (-1074)) (e - ec))
    with (d + e - ec - 106) by lia.
  replace (e - ec - (d + e - ec - 106)) with (106 - d) by lia.
  destruct (106 - d) as [|p|p] eqn:Ep; try lia.
  rewrite Z.shiftl_mul_pow2 by lia.
  pose proof (Zdigits2_bounds (Z.pos m) eq_refl) as [Lm _].
  pose proof (Zdigits2_bounds (Z.pos mc) eq_refl) as [_ Hc].
  cbn [Zdigits2] in Lm, Hc. fold d in Lm. rewrite mc_digits in Hc.
  assert (Hnum : 2 ^ 105 <= Z.pos m * 2 ^ Z.pos p).
  { replace 105 with ((d - 1) + Z.pos p) by lia.
    rewrite Z.pow_add_r by lia.
    apply Z.mul_le_mono_nonneg_r; [apply Z.pow_nonneg; lia|assumption]. }
  destruct (Z.div_eucl (Z.pos m * 2 ^ Z.pos p) (Z.pos mc)) as [q r] eqn:Eq.
  assert (Hq : q = Z.pos m * 2 ^ Z.pos p / Z.pos mc)
    by (unfold Z.div; now rewrite Eq).
  assert (Hq52 : 2 ^ 52 <= q).
  { rewrite Hq. apply Z.div_le_lower_bound; [lia|].
    change (2 ^ 105) with (2 ^ 53 * 2 ^ 52) in Hnum.
    change (2 ^ 53) with 9007199254740992 in *.
    change (2 ^ 52) with 4503599627370496 in *. nia. }
  pose proof (Zdigits2_lower q 52 ltac:(lia) Hq52) as Dq.
  apply (solid_is_neg s (d + e - ec - 53)).
  apply binary_round_aux_solid; lia.
Qed.

Lemma iter_xO (d m : positive) :
  Z.pos (Pos.iter xO m d) = Z.pos m * 2 ^ Z.pos d.
Proof.
  induction d as [|d IH] using Pos.peano_ind.
  - cbn. lia.
  - rewrite Pos.iter_succ, Pos2Z.inj_xO, IH, Pos2Z.inj_succ.
    rewrite Z.pow_succ_r by lia. lia.
Qed.

Lemma shl_align_fst (m : positive) (e e' : Z) :
  e' <= e -> Z.pos (fst (shl_align m e e')) = Z.pos m * 2 ^ (e - e').
Proof.
  intros H. unfold shl_align.
  destruct (e' - e) as [|p|p] eqn:E; cbn [fst]; try lia.
  - replace (e - e') with 0 by lia. lia.
  - rewrite iter_xO. f_equal. f_equal. lia.
Qed.

Lemma shl_align_weight (m : positive) (e e' : Z) :
  Z.pos (digits2_pos (fst (shl_align m e e'))) + snd (shl_align m e e')
  = Z.pos (digits2_pos m) + e.
Proof.
  unfold shl_align. destruct (e' - e) as [|p|p] eqn:E; cbn [fst snd]; try lia.
  change (Z.pos (digits2_pos (Pos.iter xO m p)))
    with (Zdigits2 (Z.pos (Pos.iter xO m p))).
  rewrite iter_xO, Zdigits2_mul_pow2 by lia. cbn [Zdigits2]. lia.
Qed.

Lemma binary_round_solid (s : bool) (m : positive) (e w : Z) :
  -1074 < w -> w <= Z.pos (digits2_pos m) + e ->
  solid s w (binary_round prec emax s m e).
Proof.
  intros Hw Hwe. unfold binary_round.
  pose proof (shl_align_weight m e (fexp prec emax (Z.pos (digits2_pos m) + e)))
    as W.
  destruct (shl_align m e (fexp prec emax (Z.pos (digits2_pos m) + e)))
    as [mz ez]. cbn [fst snd] in W.
  apply binary_round_aux_solid; cbn [Zdigits2]; lia.
Qed.

Lemma binary_normalize_big (M e w : Z) :
  -1074 < w -> (M <> 0 -> w <= Zdigits2 M + e) ->
  big w (binary_normalize prec emax M e false).
Proof.
  intros Hw H. destruct M as [|p|p]; cbn [binary_normalize].
  - exact I.
  - apply (solid_big false), binary_round_solid; [lia|]. apply H. lia.
  - apply (solid_big true), binary_round_solid; [lia|]. apply H. lia.
Qed.

(** The difference with the constant is zero or far above the subnormal
    range: close to the constant it is a multiple of the last bit of the
    smaller operand, far from it it is as large as the larger one. *)
Lemma SFsub_big (x : spec_float) :
  -100 <= ec <= 100 ->
  valid_binary x = true -> big (ec - 968) (SF64sub x (S754_finite false mc ec)).
Proof.
  intros Hec Hv. destruct x as [s|s| |s m e]; cbn [SF64sub SFsub big];
    try exact I; try (rewrite mc_digits; lia).
  apply valid_finite in Hv as [He Hd].
  apply binary_normalize_big; [lia|]. intros HM.
  rewrite !shl_align_fst in HM |- * by lia.
  cbn [cond_Zopp] in HM |- *.
  destruct (Z.le_gt_cases (ec - 969) e) as [Hnear|Hfar].
  - set (M := cond_Zopp s (Z.pos m * 2 ^ (e - Z.min e ec))
              - Z.pos mc * 2 ^ (ec - Z.min e ec)) in *.
    assert (1 <= Zdigits2 M) by (destruct M; cbn; lia). lia.
  - replace (Z.min e ec) with e in HM |- * by lia.
    replace (e - e) with 0 in HM |- * by lia.
    rewrite Z.pow_0_r, Z.mul_1_r in HM |- *.
    pose proof (Zdigits2_bounds (Z.pos m) eq_refl) as [_ Hm].
    pose proof (Zdigits2_bounds (Z.pos mc) eq_refl) as [Lc _].
    cbn [Zdigits2] in Hm, Lc. rewrite mc_digits in Lc.
    set (k := ec - e) in *.
    assert (Hm' : Z.pos m < 2 ^ (51 + k)).
    { eapply Z.lt_le_trans; [exact Hm|]. apply Z.pow_le_mono_r; lia. }
    assert (Hc' : 2 ^ (52 + k) <= Z.pos mc * 2 ^ k).
    { rewrite Z.pow_add_r by lia.
      apply Z.mul_le_mono_nonneg_r; [apply Z.pow_nonneg; lia|exact Lc]. }
    assert (E2 : 2 ^ (52 + k) = 2 * 2 ^ (51 + k)).
    { replace (52 + k) with (Z.succ (51 + k)) by lia.
      apply Z.pow_succ_r. lia. }
    set (M := cond_Zopp s (Z.pos m) - Z.pos mc * 2 ^ k) in *.
    assert (Habs : 2 ^ (51 + k) <= Z.abs M).
    { subst M. destruct s; cbn [cond_Zopp]; lia. }
    assert (Hdig : Zdigits2 M = Zdigits2 (Z.abs M))
      by (destruct M; reflexivity).
    pose proof (Zdigits2_lower (Z.abs M) (51 + k) ltac:(lia) Habs). lia.
Qed.

Lemma SFabs_binary_round_aux (s : bool) (m e : Z) (l : location) :
  SFabs (binary_round_aux prec emax s m e l)
  = binary_round_aux prec emax false m e l.
Proof.
  unfold binary_round_aux.
  destruct (shr_fexp prec emax m e l) as [r1 e1].
  destruct (shr_fexp prec emax _ e1 loc_Exact) as [r2 e2].
  destruct (shr_m r2); try reflexivity.
  destruct (e2 <=? emax - prec); reflexivity.
Qed.

Lemma SFabs_div (x : spec_float) :
  SFabs (SF64div x (S754_finite false mc ec))
  = SF64div (SFabs x) (S754_finite false mc ec).
Proof.
  destruct x as [s|s| |s m e]; cbn [SF64div SFdiv SFabs xorb];
    try reflexivity.
  destruct (SFdiv_core_binary prec emax (Z.pos m) e (Z.pos mc) ec)
    as [[mz ez] lz].
  apply SFabs_binary_round_aux.
Qed.

Lemma SFabs_mul (x : spec_float) :
  SFabs (SF64mul x (S754_finite false mc ec))
  = SF64mul (SFabs x) (S754_finite false mc ec).
Proof.
  destruct x as [s|s| |s m e]; cbn [SF64mul SFmul SFabs xorb];
    try reflexivity.
  apply SFabs_binary_round_aux.
Qed.

End Constant.

(** [abs] goes through a division and a multiplication by positive
    constants. *)
Lemma abs_div_mul (x l c : float) :
  moderate l -> moderate c ->
  abs (x / l * c)%float = (abs x / l * c)%float.
Proof.
  intros (ml & el & El & _ & _) (mc & ec & Ec & _ & _).
  apply Prim2SF_inj.
  rewrite abs_spec, !mul_spec, !div_spec, abs_spec, El, Ec.
  now rewrite SFabs_mul, SFabs_div.
Qed.

(** The sign test of the script, on [(v - l) / l * 100], is the sign test
    of the difference [v - l]. *)
Lemma ltb_sub_div_100 (v l : float) :
  moderate l ->
  ((v - l) / l * 100 <? 0)%float = (v - l <? 0)%float.
Proof.
  intros (ml & el & El & Dl & Hl).
  rewrite !ltb_spec, mul_spec.
  change (Prim2SF 0) with (S754_zero false). rewrite !SFltb_zero.
  change (Prim2SF 100) with (S754_finite false 7036874417766400 (-46)).
  rewrite SFmul_is_neg by (try apply Prim2SF_valid; reflexivity || lia).
  rewrite div_spec, El, SFdiv_is_neg; try assumption; try reflexivity.
  - apply Prim2SF_valid.
  - rewrite sub_spec, El. apply SFsub_big; try assumption.
    apply Prim2SF_valid.
Qed.

Ltac moderate_by_computation c :=
  let x := eval vm_compute in (Prim2SF c) in
  match x with
  | S754_finite false ?m ?e =>
      exists m, e; split; [vm_compute; reflexivity|split; [reflexivity|lia]]
  end.

Lemma moderate_100 : moderate 100.
Proof. moderate_by_computation 100%float. Qed.

Lemma moderate_5 : moderate 5.
Proof. moderate_by_computation 5%float. Qed.

Lemma moderate_10 : moderate 10.
Proof. moderate_by_computation 10%float. Qed.

Lemma moderate_tenth : moderate 0.1.
Proof. moderate_by_computation 0.1%float. Qed.

Lemma moderate_250 : moderate 250.
Proof. moderate_by_computation 250%float. Qed.

End FloatFacts.

(** ** The comparator *)

Module ComparatorFacts.
Import Comparator FloatShape FloatFacts.

Lemma safe_limits_cases (p : string) (L : float) :
  dict_get safe_limits p = Ok L ->
  L = 5%float \/ L = 10%float \/ L = 0.1%float \/ L = 250%float.
Proof.
  unfold safe_limits. cbn [dict_get].
  repeat (destruct (String.eqb _ p); [intros [= <-]; auto|]).
  discriminate.
Qed.

Lemma safe_limit_moderate (p : string) (L : float) :
  dict_get safe_limits p = Ok L -> moderate L.
Proof.
  intros H. apply safe_limits_cases in H as [-> | [-> | [-> | ->]]].
  - apply moderate_5.
  - apply moderate_10.
  - apply moderate_tenth.
  - apply moderate_250.
Qed.

Lemma safe_limit_nonzero (p : string) (L : float) :
  dict_get safe_limits p = Ok L -> (L =? 0)%float = false.
Proof.
  intros H. apply safe_limits_cases in H as [-> | [-> | [-> | ->]]];
    reflexivity.
Qed.

(** The loop body with the guard passed. *)
Lemma deviation_nonzero (val L : float) :
  (L =? 0)%float = false ->
  deviation val L
  = Ok (if ((val - L) / L * 100 <? 0)%float then "▼" else "▲",
        Fmt.format_f 1 (abs ((val - L) / L * 100)) ++ "%",
        if ((val - L) / L * 100 <? 0)%float then "#ea3943" else "#16c784").
Proof.
  intros H. unfold deviation, py_div. rewrite H. cbn [bind].
  destruct (_ <? 0)%float; reflexivity.
Qed.

(** The loop body never raises: the only division is behind the guard. *)
Lemma deviation_total (val L : float) : exists d, deviation val L = Ok d.
Proof.
  destruct (L =? 0)%float eqn:E.
  - unfold deviation. rewrite E. eauto.
  - rewrite deviation_nonzero by assumption. eauto.
Qed.

Lemma metric_total (limits : list (string * float)) (p : string)
      (val L : float) :
  dict_get limits p = Ok L ->
  metric limits p val = Ok (Pipeline.card_of (metric limits p val))
  /\ card_pollutant (Pipeline.card_of (metric limits p val)) = p.
Proof.
  intros H. unfold metric. rewrite H. cbn [bind].
  destruct (deviation_total val L) as [[[a d] c] E]. rewrite E. cbn. auto.
Qed.

(** C5: for every pollutant of the table, with limit [L] (none is zero) and
    prediction [v], the card reports [|v - L| / L * 100] (printed with one
    decimal) with the down arrow exactly when [v - L] is negative and the
    up arrow otherwise; for O2 = 4.0 against 5.0 this is down and 20.0, for
    NO2 = 0.15 against 0.1 it is up and 50.0. *)
Theorem metric_deviation (p : string) (L v : float) :
  dict_get safe_limits p = Ok L ->
  (L =? 0)%float = false
  /\ metric safe_limits p v
     = Ok {| card_pollutant := p;
             card_value := Fmt.format_f 2 v ++ " mg/L";
             card_arrow := if (v - L <? 0)%float then "▼" else "▲";
             card_delta_str :=
               Fmt.format_f 1 (abs (v - L) / L * 100) ++ "%";
             card_delta_color :=
               if (v - L <? 0)%float then "#ea3943" else "#16c784" |}
  /\ (exists c, metric safe_limits "O2" 4.0 = Ok c
                /\ card_arrow c = "▼" /\ card_delta_str c = "20.0%")
  /\ (exists c, metric safe_limits "NO2" 0.15 = Ok c
                /\ card_arrow c = "▲" /\ card_delta_str c = "50.0%").
Proof.
  intros H. pose proof (safe_limit_nonzero p L H) as Hz.
  pose proof (safe_limit_moderate p L H) as Hm.
  split; [assumption|]. split; [|split].
  - unfold metric. rewrite H. cbn [bind].
    rewrite deviation_nonzero by assumption. cbn [bind].
    rewrite ltb_sub_div_100 by assumption.
    rewrite abs_div_mul by (assumption || apply moderate_100).
    reflexivity.
  - eexists. split; [vm_compute; reflexivity|]. split; reflexivity.
  - eexists. split; [vm_compute; reflexivity|]. split; reflexivity.
Qed.

Lemma metric_deviation_witness :
  (5 =? 0)%float = false
  /\ metric safe_limits "O2" 4.0
     = Ok {| card_pollutant := "O2";
             card_value := Fmt.format_f 2 4.0 ++ " mg/L";
             card_arrow := if (4.0 - 5 <? 0)%float then "▼" else "▲";
             card_delta_str :=
               Fmt.format_f 1 (abs (4.0 - 5) / 5 * 100) ++ "%";
             card_delta_color :=
               if (4.0 - 5 <? 0)%float then "#ea3943" else "#16c784" |}
  /\ (exists c, metric safe_limits "O2" 4.0 = Ok c
                /\ card_arrow c = "▼" /\ card_delta_str c = "20.0%")
  /\ (exists c, metric safe_limits "NO2" 0.15 = Ok c
                /\ card_arrow c = "▲" /\ card_delta_str c = "50.0%").
Proof.
  apply (metric_deviation "O2" 5 4.0). reflexivity.
Defined.

(** The NO2 sample in binary64: the deviation computed is just below 50
    and is printed as 50.0. *)
Example no2_sample_rounds :
  ((0.15 - 0.1) / 0.1 * 100)%float = 49.999999999999986%float
  /\ Fmt.format_f 1 49.999999999999986 = "50.0".
Proof. split; reflexivity. Qed.

(** C6: for a pollutant whose limit in the table is zero, the card shows
    N/A with no arrow and the neutral colour; whatever the limit and the
    prediction, the loop body returns a card and raises nothing, the
    division being evaluated only behind the guard. *)
Theorem zero_limit_not_applicable (limits : list (string * float))
        (p : string) (val L : float) :
  dict_get limits p = Ok L ->
  ((L =? 0)%float = true ->
   metric limits p val
   = Ok {| card_pollutant := p;
           card_value := Fmt.format_f 2 val ++ " mg/L";
           card_arrow := "";
           card_delta_str := "N/A";
           card_delta_color := "black" |})
  /\ ((L =? 0)%float = true -> deviation val L = Ok ("", "N/A", "black"))
  /\ ((L =? 0)%float = false ->
      py_div (val - L) L = Ok ((val - L) / L)%float)
  /\ (exists d, deviation val L = Ok d)
  /\ (exists c, metric limits p val = Ok c).
Proof.
  intros H.
  assert (D0 : (L =? 0)%float = true ->
               deviation val L = Ok ("", "N/A", "black"))
    by (intros E; unfold deviation; now rewrite E).
  split; [|split; [|split; [|split]]].
  - intros E. unfold metric. rewrite H. cbn [bind]. now rewrite D0.
  - exact D0.
  - intros E. unfold py_div. now rewrite E.
  - apply deviation_total.
  - eexists. apply (metric_total limits p val L H).
Qed.

Lemma zero_limit_not_applicable_witness :
  ((0 =? 0)%float = true ->
   metric [("X", 0%float)] "X" 3.5
   = Ok {| card_pollutant := "X";
           card_value := Fmt.format_f 2 3.5 ++ " mg/L";
           card_arrow := "";
           card_delta_str := "N/A";
           card_delta_color := "black" |})
  /\ ((0 =? 0)%float = true -> deviation 3.5 0 = Ok ("", "N/A", "black"))
  /\ ((0 =? 0)%float = false ->
      py_div (3.5 - 0) 0 = Ok ((3.5 - 0) / 0)%float)
  /\ (exists d, deviation 3.5 0 = Ok d)
  /\ (exists c, metric [("X", 0%float)] "X" 3.5 = Ok c).
Proof.
  apply (zero_limit_not_applicable [("X", 0%float)] "X" 3.5 0). reflexivity.
Defined.

End ComparatorFacts.

(** ** Order on binary64 values *)

Module OrderFacts.


Lemma SFcompare_refl (x : spec_float) :
  x <> S754_nan -> SFcompare x x = Some Eq.
Proof.
  destruct x as [s|s| |s m e]; intros H; try destruct s; try reflexivity;
    try congruence; cbn [SFcompare]; rewrite Z.compare_refl;
    now rewrite Pos.compare_cont_refl.
Qed.

Lemma is_nan_false (v : float) :
  is_nan v = false <-> Prim2SF v <> S754_nan.
Proof.
  unfold is_nan. rewrite eqb_spec. unfold SFeqb. split.
  - intros H E. rewrite E in H. discriminate H.
  - intros H. now rewrite SFcompare_refl.
Qed.


End OrderFacts.

(** ** The chart *)

Module ChartFacts.
Import Chart Spec OrderFacts.

Lemma limits_of_safe_limits :
  limits_of safe_limits pollutants = Ok (map snd safe_limits).
Proof. reflexivity. Qed.

Lemma has_label_eq (r : long_row) :
  has_label r
  = (is_finite (Value r) && (label_threshold <=? Value r)%float)%bool.
Proof.
  unfold has_label, drawn, text_of.
  now destruct (label_threshold <=? Value r)%float.
Qed.

Lemma bar_layer_iff (rows : list long_row) (r : long_row) :
  In r (bar_layer (final_chart rows))
  <-> In r rows /\ is_finite (Value r) = true.
Proof. cbn [bar_layer final_chart]. apply filter_In. Qed.

(** A prediction of six values, spelled out. *)
Lemma length_six {A : Type} (l : list A) :
  List.length l = 6%nat ->
  exists a b c d e f, l = [a; b; c; d; e; f].
Proof.
  destruct l as [|a [|b [|c [|d [|e [|f [|g l]]]]]]]; try discriminate.
  intros _. now exists a, b, c, d, e, f.
Qed.


(** C7, as the code has it: for a prediction of six values the long table
    has exactly 12 rows, one per pollutant and series type, stacked by
    series type: the six Predicted rows in the order of the enumeration,
    then the six Safe Limit rows in the same order. *)
Theorem chart_long_format (predicted : list float) :
  List.length predicted = 6%nat ->
  exists rows,
    chart_df_long safe_limits predicted = Ok rows
    /\ List.length rows = 12%nat
    /\ map row_key rows = type_major
    /\ rows
       = (map (fun t => {| Pollutant := fst t; Type_ := "Predicted";
                           Value := snd t |}) (zip pollutants predicted)
          ++ map (fun t => {| Pollutant := fst t; Type_ := "Safe Limit";
                              Value := snd t |}) safe_limits)%list.
Proof.
  intros H. apply length_six in H as (a & b & c & d & e & f & ->).
  eexists. split; [reflexivity|]. repeat split.
Qed.

Lemma chart_long_format_witness :
  exists rows,
    chart_df_long safe_limits [4; 12; 0.15; 100; 0.05; 3]%float = Ok rows
    /\ List.length rows = 12%nat
    /\ map row_key rows = type_major
    /\ rows
       = (map (fun t => {| Pollutant := fst t; Type_ := "Predicted";
                           Value := snd t |})
              (zip pollutants [4; 12; 0.15; 100; 0.05; 3]%float)
          ++ map (fun t => {| Pollutant := fst t; Type_ := "Safe Limit";
                              Value := snd t |}) safe_limits)%list.
Proof.
  apply (chart_long_format [4; 12; 0.15; 100; 0.05; 3]%float). reflexivity.
Defined.

(** C7 as stated fails: the rows of a six-value prediction are not in
    pollutant-major order; the second row is the Predicted row of NO3, not
    the Safe Limit row of O2. *)
Lemma chart_long_format_not_pollutant_major :
  exists rows,
    chart_df_long safe_limits [4; 12; 0.15; 100; 0.05; 3]%float = Ok rows
    /\ List.length rows = 12%nat
    /\ map row_key rows <> pollutant_major
    /\ nth_error (map row_key rows) 1 = Some ("NO3", "Predicted")
    /\ nth_error pollutant_major 1 = Some ("O2", "Safe Limit").
Proof.
  eexists. split; [reflexivity|]. repeat split. discriminate.
Qed.

(** C8: in the built chart every bar is a row of the long table (the rows
    with a real value are all bars) and has one mark in the text layer;
    the mark prints the value (format [.2f]), so a label is drawn, exactly
    when the value of the bar is at least the threshold 10, and is the
    empty text, so no label is drawn, when the value is below 10. *)
Theorem label_iff_threshold (rows : list long_row) (r : long_row) :
  In r (bar_layer (final_chart rows)) ->
  In r rows
  /\ is_finite (Value r) = true
  /\ label_threshold = 10%float
  /\ In (r, text_of r) (text_layer (final_chart rows))
  /\ (forall t, In (r, t) (text_layer (final_chart rows)) -> t = text_of r)
  /\ (has_label r = true <-> (10 <=? Value r)%float = true)
  /\ ((10 <=? Value r)%float = true -> text_of r = Field ".2f" (Value r))
  /\ ((10 <=? Value r)%float = false ->
      text_of r = Constant "" /\ has_label r = false)
  /\ (forall r', In r' rows -> is_finite (Value r') = true ->
                 In r' (bar_layer (final_chart rows))).
Proof.
  intros Hbar. pose proof (proj1 (bar_layer_iff rows r) Hbar) as [Hin Hfin].
  split; [assumption|]. split; [assumption|]. split; [reflexivity|].
  split; [|split; [|split; [|split; [|split]]]].
  - cbn [text_layer final_chart]. apply in_map_iff. now exists r.
  - cbn [text_layer final_chart]. intros t H.
    apply in_map_iff in H as (r0 & [= -> <-] & _). reflexivity.
  - rewrite has_label_eq, Hfin. reflexivity.
  - unfold text_of. change label_threshold with 10%float. now intros ->.
  - rewrite has_label_eq, Hfin. unfold text_of.
    change label_threshold with 10%float. now intros ->.
  - intros r' H F. apply bar_layer_iff. now split.
Qed.

Lemma label_iff_threshold_witness :
  In {| Pollutant := "NO3"; Type_ := "Predicted"; Value := 12 |}
     [{| Pollutant := "NO3"; Type_ := "Predicted"; Value := 12 |};
      {| Pollutant := "NO3"; Type_ := "Safe Limit"; Value := 10 |}]
  /\ is_finite (Value {| Pollutant := "NO3"; Type_ := "Predicted";
                         Value := 12 |}) = true
  /\ label_threshold = 10%float
  /\ In ({| Pollutant := "NO3"; Type_ := "Predicted"; Value := 12 |},
         text_of {| Pollutant := "NO3"; Type_ := "Predicted"; Value := 12 |})
        (text_layer (final_chart
           [{| Pollutant := "NO3"; Type_ := "Predicted"; Value := 12 |};
            {| Pollutant := "NO3"; Type_ := "Safe Limit"; Value := 10 |}]))
  /\ (forall t,
         In ({| Pollutant := "NO3"; Type_ := "Predicted"; Value := 12 |}, t)
            (text_layer (final_chart
               [{| Pollutant := "NO3"; Type_ := "Predicted"; Value := 12 |};
                {| Pollutant := "NO3"; Type_ := "Safe Limit";
                   Value := 10 |}])) ->
         t = text_of {| Pollutant := "NO3"; Type_ := "Predicted";
                        Value := 12 |})
  /\ (has_label {| Pollutant := "NO3"; Type_ := "Predicted"; Value := 12 |}
      = true
      <-> (10 <=? Value {| Pollutant := "NO3"; Type_ := "Predicted";
                           Value := 12 |})%float = true)
  /\ ((10 <=? Value {| Pollutant := "NO3"; Type_ := "Predicted";
                       Value := 12 |})%float = true ->
      text_of {| Pollutant := "NO3"; Type_ := "Predicted"; Value := 12 |}
      = Field ".2f" (Value {| Pollutant := "NO3"; Type_ := "Predicted";
                              Value := 12 |}))
  /\ ((10 <=? Value {| Pollutant := "NO3"; Type_ := "Predicted";
                       Value := 12 |})%float = false ->
      text_of {| Pollutant := "NO3"; Type_ := "Predicted"; Value := 12 |}
      = Constant ""
      /\ has_label {| Pollutant := "NO3"; Type_ := "Predicted";
                      Value := 12 |} = false)
  /\ (forall r',
         In r' [{| Pollutant := "NO3"; Type_ := "Predicted"; Value := 12 |};
                {| Pollutant := "NO3"; Type_ := "Safe Limit"; Value := 10 |}] ->
         is_finite (Value r') = true ->
         In r' (bar_layer (final_chart
           [{| Pollutant := "NO3"; Type_ := "Predicted"; Value := 12 |};
            {| Pollutant := "NO3"; Type_ := "Safe Limit"; Value := 10 |}]))).
Proof.
  apply (label_iff_threshold
           [{| Pollutant := "NO3"; Type_ := "Predicted"; Value := 12 |};
            {| Pollutant := "NO3"; Type_ := "Safe Limit"; Value := 10 |}]
           {| Pollutant := "NO3"; Type_ := "Predicted"; Value := 12 |}).
  left. reflexivity.
Defined.

(** Rows without a real value are not in the chart: with an infinite
    value for PO4 the long table has 12 rows, the chart 11 bars and 11
    text marks, and the row of the infinite value has no label. *)
Example infinite_value_not_drawn :
  exists rows,
    chart_df_long safe_limits [4; 12; 0.15; 100; infinity; 3]%float = Ok rows
    /\ List.length rows = 12%nat
    /\ List.length (bar_layer (final_chart rows)) = 11%nat
    /\ List.length (text_layer (final_chart rows)) = 11%nat
    /\ has_label {| Pollutant := "PO4"; Type_ := "Predicted";
                    Value := infinity |} = false.
Proof. eexists. repeat split. Qed.

End ChartFacts.

(** ** The note on bars too small to see *)

Module VisibilityFacts.
Import Chart Spec OrderFacts ChartFacts Pipeline.

Ltac split_floats :=
  repeat match goal with
         | |- context [PrimFloat.ltb ?v ?c] =>
             let b := fresh "b" in
             generalize (PrimFloat.ltb v c); intros b; destruct b
         end.

(** The flagged pollutants are the enumeration filtered by the rule, so
    they come in the order of the enumeration. *)
Lemma detect_filter (predicted : list float) :
  detect_low_visibility safe_limits predicted
  = Ok (filter (low_visibility 10 predicted) pollutants).
Proof.
  unfold detect_low_visibility. rewrite limits_of_safe_limits.
  cbn [bind]. f_equal.
  destruct predicted as [|a [|b [|c [|d [|e [|f rest]]]]]];
    vm_compute; split_floats; reflexivity.
Qed.

Lemma note_block_filter (predicted : list float) (pg : page) :
  note_block safe_limits predicted pg
  = (match filter (low_visibility 10 predicted) pollutants with
     | [] => pg
     | fl => (pg ++ [Markdown (note fl)])%list
     end, Ok tt).
Proof.
  unfold note_block, seq, lift. rewrite detect_filter.
  now destruct (filter (low_visibility 10 predicted) pollutants).
Qed.

Lemma large_limit_not_flagged (predicted : list float) (p : string) :
  In p ["NO3"; "SO4"; "CL"] -> low_visibility 10 predicted p = false.
Proof.
  unfold low_visibility.
  intros [<-|[<-|[<-|[]]]]; destruct (predicted_of predicted _);
    try reflexivity; cbn [lookup safe_limits String.eqb Ascii.eqb Bool.eqb];
    apply andb_false_r.
Qed.

(** The lists that can be flagged: O2, NO2 and PO4, each in or out. *)
Lemma flagged_shapes (predicted : list float) :
  exists b1 b2 b3 : bool,
    filter (low_visibility 10 predicted) pollutants
    = ((if b1 then ["O2"] else [])
       ++ (if b2 then ["NO2"] else [])
       ++ (if b3 then ["PO4"] else []))%list.
Proof.
  exists (low_visibility 10 predicted "O2"),
         (low_visibility 10 predicted "NO2"),
         (low_visibility 10 predicted "PO4").
  cbn [filter pollutants].
  rewrite (large_limit_not_flagged predicted "NO3"),
    (large_limit_not_flagged predicted "SO4"),
    (large_limit_not_flagged predicted "CL") by (cbn; auto).
  destruct (low_visibility 10 predicted "O2"),
    (low_visibility 10 predicted "NO2"),
    (low_visibility 10 predicted "PO4"); reflexivity.
Qed.

(** The names read back from the text of a note are the names it was
    written for, in their order. *)
Lemma note_lists_names (b1 b2 b3 : bool) :
  let fl := ((if b1 then ["O2"] else [])
             ++ (if b2 then ["NO2"] else [])
             ++ (if b3 then ["PO4"] else []))%list in
  fl <> [] -> listed_names (note fl) = Some fl.
Proof.
  destruct b1, b2, b3; cbn zeta; intros H;
    try (vm_compute; reflexivity).
  now contradiction H.
Qed.

(** C9: with the threshold 10 a pollutant is flagged exactly when its
    prediction and its safe limit are both below 10, the flagged pollutants
    keeping the order of the enumeration; no note is drawn when none is
    flagged, and otherwise one note is drawn whose text, read back, lists
    exactly the flagged pollutants in that order (for the sample
    prediction: O2, NO2, PO4, each in bold, separated by commas); PO4
    predicted 0.05 (limit 0.1) is flagged, NO3 predicted 12 (limit 10) is
    not. *)
Theorem low_visibility_flags (predicted : list float) :
  exists fl,
    detect_low_visibility safe_limits predicted = Ok fl
    /\ fl = filter (low_visibility 10 predicted) pollutants
    /\ (forall p, In p fl
                  <-> In p pollutants /\ low_visibility 10 predicted p = true)
    /\ (forall pg,
           (fl = [] /\ note_block safe_limits predicted pg = (pg, Ok tt))
           \/ (fl <> []
               /\ exists text,
                   note_block safe_limits predicted pg
                   = ((pg ++ [Markdown text])%list, Ok tt)
                   /\ listed_names text = Some fl))
    /\ (predicted_of predicted "PO4" = Some 0.05%float -> In "PO4" fl)
    /\ (predicted_of predicted "NO3" = Some 12%float -> ~ In "NO3" fl)
    /\ note_block safe_limits [4; 12; 0.15; 100; 0.05; 3]%float []
       = ([Markdown
             ("<b>Note:</b> The following pollutants have predicted and safe limit values that are very small compared to the scale of the chart, "
              ++ "so their bars may not be visible or may appear as a thin line. "
              ++ "This usually happens when concentrations are close to zero or much lower than other pollutants.<br>"
              ++ "Please refer to the numeric predictions above for exact values.<br>"
              ++ "<b>Pollutants affected:</b> <b>O2</b>, <b>NO2</b>, <b>PO4</b>.")],
          Ok tt).
Proof.
  exists (filter (low_visibility 10 predicted) pollutants).
  split; [apply detect_filter|]. split; [reflexivity|].
  split; [intros p; apply filter_In|].
  split; [|split; [|split]].
  - intros pg. rewrite note_block_filter.
    destruct (flagged_shapes predicted) as (b1 & b2 & b3 & E).
    pose proof (note_lists_names b1 b2 b3) as L. cbn zeta in L.
    rewrite <- E in L.
    destruct (filter (low_visibility 10 predicted) pollutants) as [|p fl].
    + left. split; reflexivity.
    + right. split; [discriminate|]. eexists. split; [reflexivity|].
      apply L. discriminate.
  - intros H. apply filter_In. split; [cbn; tauto|].
    unfold low_visibility. now rewrite H.
  - intros H F. apply filter_In in F as [_ F].
    unfold low_visibility in F. rewrite H in F. discriminate F.
  - vm_compute. reflexivity.
Qed.

Example low_visibility_sample :
  detect_low_visibility safe_limits [4; 12; 0.15; 100; 0.05; 3]%float
  = Ok ["O2"; "NO2"; "PO4"].
Proof. reflexivity. Qed.

End VisibilityFacts.

(** ** Labels and the note *)

Module LabelFacts.
Import Chart Spec OrderFacts ChartFacts VisibilityFacts.







(** Outside the real values the two rules part: with NaN predicted for
    PO4 its Predicted bar is not in the chart and its Safe Limit bar has
    no label, yet PO4 is not flagged, NaN not being below 10. *)
Remark nan_unlabelled_not_flagged :
  exists rows fl,
    chart_df_long safe_limits [4; 12; 0.15; 100; nan; 3]%float = Ok rows
    /\ detect_low_visibility safe_limits [4; 12; 0.15; 100; nan; 3]%float
       = Ok fl
    /\ unlabelled rows "PO4"
    /\ ~ In "PO4" fl.
Proof.
  do 2 eexists. split; [reflexivity|]. split; [reflexivity|]. split.
  - intros r Hin Hr. cbn in Hin.
    repeat (destruct Hin as [<-|Hin]; [try discriminate Hr; reflexivity|]).
    destruct Hin.
  - vm_compute. intros [H|[H|[]]]; discriminate H.
Qed.

End LabelFacts.

(** ** The script *)

Module PipelineFacts.
Import Comparator Chart Spec Pipeline ComparatorFacts ChartFacts.

Lemma for_each_draws {A : Type} (body : A -> script unit)
      (g : A -> element) (xs : list A) :
  (forall x, In x xs -> forall pg, body x pg = ((pg ++ [g x])%list, Ok tt)) ->
  forall pg, for_each body xs pg = ((pg ++ map g xs)%list, Ok tt).
Proof.
  induction xs as [|x xs IH]; intros H pg; cbn [for_each map].
  - unfold ret. now rewrite app_nil_r.
  - unfold seq. rewrite (H x (or_introl eq_refl)).
    rewrite IH by (intros y Hy; apply H; now right).
    now rewrite <- app_assoc.
Qed.

Lemma in_zip_fst {A B : Type} (xs : list A) :
  forall (ys : list B) (x : A) (y : B), In (x, y) (zip xs ys) -> In x xs.
Proof.
  induction xs as [|a xs IH]; intros [|b ys] x y H; cbn in H; try tauto.
  destruct H as [[= <- <-]|H]; [now left|right; eauto].
Qed.

Lemma in_enumerate_from {A : Type} (xs : list A) :
  forall (k i : nat) (x : A), In (i, x) (enumerate_from k xs) -> In x xs.
Proof.
  induction xs as [|a xs IH]; intros k i x H; cbn in H; [tauto|].
  destruct H as [[= <- <-]|H]; [now left|right; eauto].
Qed.

Lemma map_fst_zip {A B : Type} (xs : list A) :
  forall ys : list B, map fst (zip xs ys) = firstn (List.length ys) xs.
Proof.
  induction xs as [|a xs IH]; intros [|b ys]; cbn; try reflexivity.
  now rewrite IH.
Qed.

Lemma map_snd_enumerate_from {A : Type} (xs : list A) :
  forall k, map snd (enumerate_from k xs) = xs.
Proof.
  induction xs as [|a xs IH]; intros k; cbn; [reflexivity|]. now rewrite IH.
Qed.

Lemma pollutant_has_limit (p : string) :
  In p pollutants -> exists L, dict_get safe_limits p = Ok L.
Proof.
  cbn [In pollutants].
  intros [<-|[<-|[<-|[<-|[<-|[<-|[]]]]]]]; eexists; reflexivity.
Qed.

(** The loop draws one card per pair of the [zip] and raises nothing. *)
Lemma metric_loop_draws (predicted : list float) (pg : page) :
  metric_loop safe_limits predicted pg
  = ((pg ++ map drawn_card (enumerate (zip pollutants predicted)))%list,
     Ok tt).
Proof.
  unfold metric_loop. apply for_each_draws.
  intros [i [p v]] Hin pg'.
  apply in_enumerate_from, in_zip_fst, pollutant_has_limit in Hin as [L HL].
  unfold seq, lift, draw, drawn_card. cbn [fst snd].
  now rewrite (proj1 (metric_total safe_limits p v L HL)).
Qed.

Lemma cards_app (pg pg2 : page) :
  cards (pg ++ pg2)%list = (cards pg ++ cards pg2)%list.
Proof.
  induction pg as [|[] pg IH]; cbn; now rewrite ?IH.
Qed.

Lemma cards_drawn (items : list (nat * (string * float))) :
  (forall t, In t items -> In (fst (snd t)) pollutants) ->
  map card_pollutant (cards (map drawn_card items)) = map fst (map snd items).
Proof.
  induction items as [|[i [p v]] items IH]; intros H; [reflexivity|].
  cbn [map cards drawn_card fst snd].
  destruct (pollutant_has_limit p (H _ (or_introl eq_refl))) as [L HL].
  rewrite (proj2 (metric_total safe_limits p v L HL)).
  now rewrite <- IH by (intros t Ht; apply H; now right).
Qed.

Lemma cards_of_loop (predicted : list float) :
  map card_pollutant
      (cards (map drawn_card (enumerate (zip pollutants predicted))))
  = firstn (List.length predicted) pollutants.
Proof.
  rewrite cards_drawn.
  - unfold enumerate. now rewrite map_snd_enumerate_from, map_fst_zip.
  - intros [i [p v]] H. eapply in_zip_fst, in_enumerate_from, H.
Qed.

Lemma chart_df_long_mismatch (predicted : list float) :
  List.length predicted <> 6%nat ->
  chart_df_long safe_limits predicted
  = Raise (ValueError "All arrays must be of the same length").
Proof.
  intros H. unfold chart_df_long. rewrite limits_of_safe_limits.
  cbn [bind]. unfold data_frame.
  destruct (Nat.eqb (List.length pollutants) (List.length predicted)) eqn:E;
    [|reflexivity].
  apply Nat.eqb_eq in E. cbn in E. congruence.
Qed.

Lemma no_chart_drawn (items : list (nat * (string * float))) :
  existsb is_chart (map drawn_card items) = false
  /\ existsb is_note (map drawn_card items) = false.
Proof. induction items as [|t items [IH1 IH2]]; cbn; auto. Qed.

(** C4, as the code has it: for a prediction of [n] values the loop draws
    [min n 6] cards and raises nothing; they are the cards of the first
    [min n 6] pollutants of O2, NO3, NO2, SO4, PO4, CL in that order,
    whatever the values, so all six in order as soon as [n >= 6]. *)
Theorem compare_entries (predicted : list float) :
  exists pg,
    metric_loop safe_limits predicted [] = (pg, Ok tt)
    /\ List.length (cards pg) = List.length pg
    /\ map card_pollutant (cards pg)
       = firstn (List.length predicted) pollutants
    /\ List.length (cards pg) = Nat.min (List.length predicted) 6
    /\ ((6 <= List.length predicted)%nat ->
        map card_pollutant (cards pg) = pollutants).
Proof.
  eexists. split; [apply metric_loop_draws|]. cbn [app].
  pose proof (cards_of_loop predicted) as H.
  split; [|split; [exact H|split]].
  - generalize (enumerate (zip pollutants predicted)).
    induction l as [|t l IH]; cbn; congruence.
  - rewrite <- (length_map card_pollutant), H, length_firstn. reflexivity.
  - intros Hlen. rewrite H. apply firstn_all2. exact Hlen.
Qed.

(** C4 as stated fails: a prediction of one value gives one card. *)
Lemma compare_short_prediction :
  exists pg,
    metric_loop safe_limits [4%float] [] = (pg, Ok tt)
    /\ map card_pollutant (cards pg) = ["O2"]
    /\ List.length (cards pg) <> 6%nat.
Proof.
  eexists. split; [vm_compute; reflexivity|]. split; [reflexivity|].
  discriminate.
Qed.

Section Model.

Variable model_predict : Frame.frame -> list (list float).
Variable model_cols : list string.

(** C3, as the code has it: when the row the model returns has a length
    [n] other than 6 the request ends in an exception, raised when the
    chart table is built; no chart and no note are drawn, but the heading,
    the cards of the first [min n 6] pollutants and the chart title are on
    the page by then. *)
Theorem width_mismatch_is_fatal (year_input : Z) (station_id : string)
        (row : list float) :
  predicted_row model_predict model_cols year_input station_id = Ok row ->
  List.length row <> 6%nat ->
  exists pg,
    on_predict model_predict model_cols year_input station_id []
    = (pg, Raise (ValueError "All arrays must be of the same length"))
    /\ pg = (Heading station_id year_input
             :: map drawn_card (enumerate (zip pollutants row))
             ++ [ChartTitle])%list
    /\ map card_pollutant (cards pg) = firstn (List.length row) pollutants
    /\ List.length (cards pg) = Nat.min (List.length row) 6
    /\ existsb is_chart pg = false
    /\ existsb is_note pg = false.
Proof.
  intros Hrow Hlen. eexists. split; [|split; [reflexivity|]].
  - unfold on_predict, seq, lift, draw. rewrite Hrow. cbn [app].
    rewrite metric_loop_draws. unfold chart_block, seq, lift, draw.
    now rewrite chart_df_long_mismatch.
  - pose proof (cards_of_loop row) as H.
    assert (C : cards (Heading station_id year_input
                       :: map drawn_card (enumerate (zip pollutants row))
                       ++ [ChartTitle])
                = cards (map drawn_card (enumerate (zip pollutants row)))).
    { cbn [cards]. rewrite cards_app. cbn. now rewrite app_nil_r. }
    rewrite C. split; [exact H|]. split.
    + rewrite <- (length_map card_pollutant), H, length_firstn. reflexivity.
    + cbn [existsb is_chart is_note orb]. rewrite !existsb_app.
      destruct (no_chart_drawn (enumerate (zip pollutants row))) as [-> ->].
      split; reflexivity.
Qed.

(** For comparison, the request that succeeds: a row of six values gives
    the heading, the six cards, the chart and, when some pollutant is
    flagged, the note. *)
Lemma six_values_render (year_input : Z) (station_id : string)
      (row : list float) (rows : list long_row) :
  predicted_row model_predict model_cols year_input station_id = Ok row ->
  chart_df_long safe_limits row = Ok rows ->
  on_predict model_predict model_cols year_input station_id []
  = ((Heading station_id year_input
      :: map drawn_card (enumerate (zip pollutants row))
      ++ [ChartTitle; AltairChart (final_chart rows)]
      ++ match filter (low_visibility 10 row) pollutants with
         | [] => []
         | fl => [Markdown (note fl)]
         end)%list, Ok tt).
Proof.
  intros Hrow Hrows.
  unfold on_predict, seq, lift, draw. rewrite Hrow. cbn [app].
  rewrite metric_loop_draws. unfold chart_block, seq, lift, draw.
  rewrite Hrows, VisibilityFacts.note_block_filter.
  destruct (filter (low_visibility 10 row) pollutants);
    cbn [app]; rewrite <- ?app_assoc; reflexivity.
Qed.

End Model.

Lemma width_mismatch_is_fatal_witness :
  exists pg,
    on_predict (fun _ => [[4; 12; 0.15]%float]) ["year"; "id_1"] 2022 "1" []
    = (pg, Raise (ValueError "All arrays must be of the same length"))
    /\ pg = (Heading "1" 2022
             :: map drawn_card
                    (enumerate (zip pollutants [4; 12; 0.15]%float))
             ++ [ChartTitle])%list
    /\ map card_pollutant (cards pg)
       = firstn (List.length [4; 12; 0.15]%float) pollutants
    /\ List.length (cards pg) = Nat.min (List.length [4; 12; 0.15]%float) 6
    /\ existsb is_chart pg = false
    /\ existsb is_note pg = false.
Proof.
  apply (width_mismatch_is_fatal (fun _ => [[4; 12; 0.15]%float])
                                 ["year"; "id_1"] 2022 "1"
                                 [4; 12; 0.15]%float).
  - reflexivity.
  - discriminate.
Defined.

(** C3 as stated fails: a model that returns three values leaves three
    cards on the page before the request fails. *)
Lemma partial_cards_before_failure :
  exists pg e,
    on_predict (fun _ => [[4; 12; 0.15]%float]) ["year"; "id_1"] 2022 "1" []
    = (pg, Raise e)
    /\ map card_pollutant (cards pg) = ["O2"; "NO3"; "NO2"]
    /\ cards pg <> [].
Proof.
  do 2 eexists. split; [vm_compute; reflexivity|].
  split; [reflexivity|discriminate].
Qed.

End PipelineFacts.

(** * Further properties *)

(** ** The reconciliation loop of the encoder *)

Module EncoderLoopFacts.
Import Frame Encoder EncoderFacts Observe.

Lemma has_column_true (col : string) (df : frame) :
  has_column col df = true <-> In col (columns df).
Proof.
  unfold has_column. rewrite existsb_exists. split.
  - intros [c [H E]]. apply String.eqb_eq in E. now subst.
  - intros H. exists col. split; [assumption|apply String.eqb_refl].
Qed.

Lemma has_column_app (col : string) (df df2 : frame) :
  has_column col (df ++ df2)%list
  = (has_column col df || has_column col df2)%bool.
Proof.
  unfold has_column, columns. now rewrite map_app, existsb_app.
Qed.

Lemma set_column_absent (col : string) (v : Z) (df : frame) :
  has_column col df = false -> set_column col v df = (df ++ [(col, v)])%list.
Proof.
  induction df as [|[c x] df IH]; intros H; [reflexivity|].
  rewrite has_column_cons in H. apply orb_false_elim in H as [Hc Hd].
  cbn [set_column app]. rewrite String.eqb_sym, Hc. now rewrite IH.
Qed.

(** X1: the loop that reconciles the input with the schema never changes
    or reorders the columns that are already there; it only appends
    columns holding 0, one for each schema name that is missing and none
    twice, and leaves every schema name present. *)
Theorem add_missing_appends_zeros (model_cols : list string) (df : frame) :
  exists extra,
    add_missing model_cols df = (df ++ extra)%list
    /\ (forall c x, In (c, x) extra ->
                    x = 0 /\ In c model_cols /\ has_column c df = false)
    /\ NoDup (columns extra)
    /\ (forall c, In c model_cols ->
                  has_column c (add_missing model_cols df) = true).
Proof.
  revert df. induction model_cols as [|a cols IH]; intros df.
  - exists []. cbn. rewrite app_nil_r. repeat split; try tauto. constructor.
  - unfold add_missing. cbn [fold_left].
    fold (add_missing cols
            (if negb (has_column a df) then set_column a 0 df else df)).
    destruct (has_column a df) eqn:Ha; cbn [negb].
    + destruct (IH df) as (extra & E & Z0 & ND & P).
      exists extra. rewrite E. repeat split; try assumption.
      * now apply Z0 in H.
      * right. now apply Z0 in H.
      * now apply Z0 in H.
      * intros c [<-|Hc]; [|rewrite <- E; now apply P].
        rewrite has_column_app, Ha. reflexivity.
    + rewrite set_column_absent by assumption.
      destruct (IH (df ++ [(a, 0)])%list) as (extra & E & Z0 & ND & P).
      exists ((a, 0) :: extra). rewrite E, <- app_assoc. cbn [app].
      split; [reflexivity|]. split; [|split].
      * intros c x [[= <- <-]|H]; [repeat split; auto; now left|].
        apply Z0 in H as (-> & Hc & Habs).
        rewrite has_column_app in Habs.
        apply orb_false_elim in Habs as [Hdf _]. repeat split; auto.
        now right.
      * cbn [columns map fst]. constructor; [|assumption].
        intros Hin. apply in_map_iff in Hin as [[c x] [Hc Hin]].
        cbn in Hc. subst c. apply Z0 in Hin as (_ & _ & Habs).
        rewrite has_column_app in Habs.
        apply orb_false_elim in Habs as [_ Habs]. cbn in Habs.
        now rewrite String.eqb_refl in Habs.
      * intros c [<-|Hc].
        -- rewrite !has_column_app. cbn. rewrite String.eqb_refl.
           now rewrite orb_true_r.
        -- specialize (P c Hc). rewrite E, <- app_assoc in P. exact P.
Qed.

End EncoderLoopFacts.

(** ** What the encoder tells apart *)

Module EncoderSeparation.
Import Frame Encoder EncoderFacts Observe.

Lemma dummy_column_inj (s1 s2 : string) :
  dummy_column s1 = dummy_column s2 -> s1 = s2.
Proof. unfold dummy_column, dummy_prefix. cbn. now intros [= ->]. Qed.

Lemma dummy_column_not_year (s : string) : dummy_column s <> "year".
Proof. unfold dummy_column, dummy_prefix. cbn. discriminate. Qed.

Lemma map_cell_ext (f g : string -> Z) (cols : list string) :
  map (fun c => (c, f c)) cols = map (fun c => (c, g c)) cols
  <-> forall c, In c cols -> f c = g c.
Proof.
  induction cols as [|a cols IH]; cbn [map].
  - split; [intros _ c []|reflexivity].
  - split.
    + intros [= Ha Hr] c [<-|Hc]; [assumption|]. now apply IH.
    + intros H. f_equal.
      * f_equal. apply H. now left.
      * apply IH. intros c Hc. apply H. now right.
Qed.

Lemma encode_eq_iff (y1 y2 : Z) (s1 s2 : string) (cols : list string) :
  encode y1 s1 cols = encode y2 s2 cols
  <-> forall c, In c cols -> cell y1 s1 c = cell y2 s2 c.
Proof.
  rewrite !encode_eq, <- map_cell_ext. split; [now intros [= ->]|now intros ->].
Qed.

(** X2: two stations get the same feature vector exactly when they are
    the same station or when neither has its indicator column in the
    schema: known stations are told apart, unknown ones all collapse to
    the vector without any station signal. *)
Theorem encode_same_station_iff (year_input : Z) (s1 s2 : string)
        (model_cols : list string) :
  encode year_input s1 model_cols = encode year_input s2 model_cols
  <-> s1 = s2
      \/ (~ In (dummy_column s1) model_cols
          /\ ~ In (dummy_column s2) model_cols).
Proof.
  rewrite encode_eq_iff. split.
  - intros H. destruct (string_dec s1 s2) as [E|N]; [now left|right].
    assert (D : dummy_column s1 <> dummy_column s2)
      by (intros E; now apply dummy_column_inj in E).
    split; intros Hin; specialize (H _ Hin); unfold cell in H;
      rewrite (proj2 (String.eqb_neq _ _) (dummy_column_not_year _)) in H;
      rewrite String.eqb_refl in H.
    + rewrite (proj2 (String.eqb_neq _ _) D) in H. discriminate H.
    + rewrite (proj2 (String.eqb_neq _ _) (not_eq_sym D)) in H.
      discriminate H.
  - intros [->|[N1 N2]] c Hc; [reflexivity|]. unfold cell.
    destruct (String.eqb c "year"); [reflexivity|].
    destruct (String.eqb c (dummy_column s1)) eqn:E1.
    { apply String.eqb_eq in E1. subst c. contradiction. }
    destruct (String.eqb c (dummy_column s2)) eqn:E2; [|reflexivity].
    apply String.eqb_eq in E2. subst c. contradiction.
Qed.

(** X3: two years get the same feature vector exactly when they are the
    same year or when the schema has no [year] column, in which case the
    year the user entered is dropped without a word. *)
Theorem encode_same_year_iff (y1 y2 : Z) (station_id : string)
        (model_cols : list string) :
  encode y1 station_id model_cols = encode y2 station_id model_cols
  <-> y1 = y2 \/ ~ In "year" model_cols.
Proof.
  rewrite encode_eq_iff. split.
  - intros H. destruct (in_dec string_dec "year" model_cols) as [Hin|N];
      [left|now right].
    specialize (H _ Hin). unfold cell in H. now rewrite String.eqb_refl in H.
  - intros [->|N] c Hc; [reflexivity|]. unfold cell.
    destruct (String.eqb c "year") eqn:E; [|reflexivity].
    apply String.eqb_eq in E. subst c. contradiction.
Qed.

Lemma set_indicators_map (year_input : Z) (station_id : string)
      (cols : list string) :
  set_indicators (map (fun c => (c, cell year_input station_id c)) cols)
  = filter (String.eqb (dummy_column station_id)) cols.
Proof.
  unfold set_indicators.
  induction cols as [|a cols IH]; [reflexivity|].
  cbn [map filter fst snd].
  destruct (String.eqb (dummy_column station_id) a) eqn:E.
  - apply String.eqb_eq in E. subst a.
    rewrite dummy_column_indicator, cell_indicator
      by apply dummy_column_indicator.
    rewrite String.eqb_refl. cbn. now rewrite IH.
  - destruct (is_indicator a) eqn:Ia; cbn [andb]; [|exact IH].
    rewrite cell_indicator by assumption.
    rewrite String.eqb_sym, E. cbn. exact IH.
Qed.

Lemma filter_eqb_count (x : string) (l : list string) :
  List.length (filter (String.eqb x) l) = count_occ string_dec l x.
Proof.
  induction l as [|a l IH]; [reflexivity|]. cbn [filter count_occ].
  destruct (string_dec a x) as [->|N].
  - rewrite String.eqb_refl. cbn. now rewrite IH.
  - rewrite (proj2 (String.eqb_neq x a)) by congruence. exact IH.
Qed.

(** X4: the indicator columns that hold 1 in the vector are the
    occurrences of the station's own column in the schema, and nothing
    else: as many as the schema lists that column, so exactly one for a
    known station when the schema has no repeated name, and none for an
    unknown station. *)
Theorem set_indicators_count (year_input : Z) (station_id : string)
        (model_cols : list string) :
  exists fv,
    encode year_input station_id model_cols = Ok fv
    /\ (forall c, In c (set_indicators fv) -> c = dummy_column station_id)
    /\ List.length (set_indicators fv)
       = count_occ string_dec model_cols (dummy_column station_id)
    /\ (NoDup model_cols -> In (dummy_column station_id) model_cols ->
        set_indicators fv = [dummy_column station_id])
    /\ (~ In (dummy_column station_id) model_cols -> set_indicators fv = []).
Proof.
  eexists. split; [apply encode_eq|]. rewrite set_indicators_map.
  split; [|split; [apply filter_eqb_count|split]].
  - intros c H. apply filter_In in H as [_ E].
    apply String.eqb_eq in E. now subst.
  - intros ND Hin.
    assert (L : List.length (filter (String.eqb (dummy_column station_id))
                                    model_cols) = 1%nat).
    { rewrite filter_eqb_count. apply (NoDup_count_occ' string_dec); assumption. }
    destruct (filter _ model_cols) as [|a [|b l]] eqn:F; try discriminate L.
    assert (Ha : In a (filter (String.eqb (dummy_column station_id)) model_cols))
      by (rewrite F; now left).
    apply filter_In in Ha as [_ E]. apply String.eqb_eq in E. now subst.
  - intros N.
    destruct (filter _ model_cols) as [|a l] eqn:F; [reflexivity|].
    assert (Ha : In a (filter (String.eqb (dummy_column station_id)) model_cols))
      by (rewrite F; now left).
    apply filter_In in Ha as [Hin E]. apply String.eqb_eq in E. subst a.
    contradiction.
Qed.

End EncoderSeparation.

(** ** The outcomes of a request and the layout of the cards *)

Module RequestFacts.
Import Comparator Chart Spec Pipeline ComparatorFacts ChartFacts PipelineFacts.
Import Observe.

Lemma chart_df_long_six (row : list float) :
  List.length row = 6%nat ->
  exists rows, chart_df_long safe_limits row = Ok rows.
Proof.
  intros H. apply length_six in H as (a & b & c & d & e & f & ->).
  eexists. reflexivity.
Qed.

Lemma seq_lift_ok {A B : Type} (a : A) (k : A -> script B) (pg : page) :
  seq (lift (Ok a)) k pg = k a pg.
Proof. reflexivity. Qed.

(** For a model that answers with rows, [request] is [on_predict]. *)
Lemma request_rows (model_predict : Frame.frame -> list (list float))
      (model_cols : list string) (year_input : Z) (station_id : string)
      (pg : page) :
  request (fun fv => Array2 (model_predict fv)) model_cols
          year_input station_id pg
  = on_predict model_predict model_cols year_input station_id pg.
Proof.
  unfold request, on_predict, predicted_row, seq, lift.
  rewrite EncoderFacts.encode_eq. cbn [bind].
  now destruct (model_predict _).
Qed.

(** X5: for a model whose [predict] raises or returns an array of floats
    of one or two dimensions, whatever the schema and the input, a request
    ends in one of these ways. An exception of the model comes out as it
    is, before anything is drawn, and so does IndexError when the array is
    empty; a one-dimensional answer stops with TypeError after the
    heading; a first row of six values completes the request; a first row
    of any other width ends in ValueError. KeyError and ZeroDivisionError
    never come out of the script itself, and the rows after the first are
    never looked at. *)
Theorem request_outcomes (model : Frame.frame -> answer)
        (model_cols : list string) (year_input : Z) (station_id : string)
        (pg : page) :
  exists fv,
    Encoder.encode year_input station_id model_cols = Ok fv
    /\ match model fv with
       | Raised e =>
           request model model_cols year_input station_id pg = (pg, Raise e)
       | Array1 [] | Array2 [] =>
           request model model_cols year_input station_id pg
           = (pg, Raise IndexError)
       | Array1 (_ :: _) =>
           request model model_cols year_input station_id pg
           = ((pg ++ [Heading station_id year_input])%list,
              Raise TypeError)
       | Array2 (row :: _) =>
           snd (request model model_cols year_input station_id pg)
           = if Nat.eqb (List.length row) 6 then Ok tt
             else Raise (ValueError "All arrays must be of the same length")
       end.
Proof.
  eexists. split; [apply EncoderFacts.encode_eq|].
  unfold request. rewrite EncoderFacts.encode_eq, seq_lift_ok.
  destruct (model _) as [e|[|v vs]|[|row rest]]; try reflexivity.
  unfold seq, lift, draw, first_row. rewrite metric_loop_draws.
  unfold chart_block, seq, lift, draw.
  destruct (Nat.eqb (List.length row) 6) eqn:E.
  - apply Nat.eqb_eq in E. destruct (chart_df_long_six row E) as [rows ->].
    now rewrite VisibilityFacts.note_block_filter.
  - apply Nat.eqb_neq in E. now rewrite chart_df_long_mismatch.
Qed.

(** X6: [six_values_render] on a sample request. *)
Lemma six_values_render_witness :
  on_predict (fun _ => [[4; 12; 0.15; 100; 0.05; 3]%float])
             ["year"; "id_1"] 2022 "1" []
  = ((Heading "1" 2022
      :: map drawn_card
             (enumerate (zip pollutants [4; 12; 0.15; 100; 0.05; 3]%float))
      ++ [ChartTitle;
          AltairChart
            (final_chart
               (melt (map (fun t => {| w_pollutant := fst t;
                                       w_predicted := fst (snd t);
                                       w_safe_limit := snd (snd t) |})
                          (zip pollutants
                               (zip [4; 12; 0.15; 100; 0.05; 3]%float
                                    (map snd safe_limits))))))]
      ++ match filter (low_visibility 10 [4; 12; 0.15; 100; 0.05; 3]%float)
                      pollutants with
         | [] => []
         | fl => [Markdown (note fl)]
         end)%list, Ok tt).
Proof.
  apply (six_values_render (fun _ => [[4; 12; 0.15; 100; 0.05; 3]%float])
                           ["year"; "id_1"] 2022 "1"
                           [4; 12; 0.15; 100; 0.05; 3]%float).
  - reflexivity.
  - reflexivity.
Defined.

Lemma column_cards_drawn (k : nat) (items : list (nat * (string * float))) :
  (forall t, In t items -> In (fst (snd t)) pollutants) ->
  map card_pollutant (column_cards k (map drawn_card items))
  = map (fun t => fst (snd t))
        (filter (fun t => Nat.eqb (Nat.modulo (fst t) 3) k) items).
Proof.
  induction items as [|[i [p v]] items IH]; intros H; [reflexivity|].
  cbn [map column_cards drawn_card filter fst snd].
  destruct (pollutant_has_limit p (H _ (or_introl eq_refl))) as [L HL].
  pose proof (proj2 (metric_total safe_limits p v L HL)) as Hp.
  specialize (IH (fun t Ht => H t (or_intror Ht))).
  destruct (Nat.eqb (Nat.modulo i 3) k); cbn [map fst snd]; now rewrite ?Hp, IH.
Qed.

(** X7: the cards are dealt into the three columns in turn: every card is
    drawn in a column numbered below 3, column [k] getting the pollutants
    whose position is [k] modulo 3; for a prediction of six values or more
    this is O2 and SO4 in the first column, NO3 and PO4 in the second, NO2
    and CL in the third. *)
Theorem cards_in_three_columns (predicted : list float) :
  exists pg,
    metric_loop safe_limits predicted [] = (pg, Ok tt)
    /\ (forall k c, In (MetricCard k c) pg -> (k < 3)%nat)
    /\ (forall k,
           map card_pollutant (column_cards k pg)
           = map (fun t => fst (snd t))
                 (filter (fun t => Nat.eqb (Nat.modulo (fst t) 3) k)
                         (enumerate (zip pollutants predicted))))
    /\ ((6 <= List.length predicted)%nat ->
        map card_pollutant (column_cards 0 pg) = ["O2"; "SO4"]
        /\ map card_pollutant (column_cards 1 pg) = ["NO3"; "PO4"]
        /\ map card_pollutant (column_cards 2 pg) = ["NO2"; "CL"]).
Proof.
  eexists. split; [apply metric_loop_draws|]. cbn [app].
  assert (P : forall t, In t (enumerate (zip pollutants predicted)) ->
                        In (fst (snd t)) pollutants).
  { intros [i [p v]] H. eapply in_zip_fst, in_enumerate_from, H. }
  split; [|split].
  - intros k c H. apply in_map_iff in H as [[i pv] [E _]].
    assert (Ek : k = Nat.modulo i 3)
      by (unfold drawn_card in E; cbn [fst] in E; congruence).
    rewrite Ek. apply Nat.mod_upper_bound. discriminate.
  - intros k. now apply column_cards_drawn.
  - intros Hlen. rewrite !column_cards_drawn by assumption.
    destruct predicted as [|a [|b [|c [|d [|e [|f rest]]]]]];
      cbn in Hlen; try lia.
    repeat split.
Qed.

End RequestFacts.

(** ** Differences and comparisons of binary64 values *)

Module FloatOrderFacts.
Import FloatShape FloatFacts OrderFacts.

Lemma valid_finite_canonical (s : bool) (m : positive) (e : Z) :
  valid_binary (S754_finite s m e) = true ->
  Z.max (Z.pos (digits2_pos m) + e - 53) (-1074) = e.
Proof.
  cbn [SpecFloat.valid_binary]. unfold bounded, canonical_mantissa.
  rewrite fexp_eq. intros H. apply andb_prop in H as [H _].
  now apply Z.eqb_eq in H.
Qed.

Lemma Zdigits2_nonzero (M : Z) : M <> 0 -> 1 <= Zdigits2 M.
Proof. destruct M; cbn; [congruence|lia|lia]. Qed.

Section Constant.

Variables (mc : positive) (ec : Z).
Hypothesis mc_digits : Z.pos (digits2_pos mc) = 53.
Hypothesis ec_range : -100 <= ec <= 100.

Lemma binary_normalize_is_neg (M e : Z) :
  (M <> 0 -> -1074 < Zdigits2 M + e) ->
  is_neg (binary_normalize prec emax M e false) = (M <? 0).
Proof.
  intros H. destruct M as [|p|p]; cbn [binary_normalize]; [reflexivity| |].
  - assert (W : -1074 < Z.pos (digits2_pos p) + e) by (apply H; discriminate).
    apply (solid_is_neg false (Z.pos (digits2_pos p) + e)).
    apply (binary_round_solid mc false p e); lia.
  - assert (W : -1074 < Z.pos (digits2_pos p) + e) by (apply H; discriminate).
    apply (solid_is_neg true (Z.pos (digits2_pos p) + e)).
    apply (binary_round_solid mc true p e); lia.
Qed.

(** The difference with the constant is negative exactly for the floats
    below the constant. *)
Lemma SFsub_is_neg (x : spec_float) :
  valid_binary x = true ->
  is_neg (SF64sub x (S754_finite false mc ec))
  = SFltb x (S754_finite false mc ec).
Proof.
  intros Hv. destruct x as [s|s| |s m e]; try (destruct s; reflexivity);
    try reflexivity.
  pose proof (valid_finite_canonical _ _ _ Hv) as Hcan.
  apply valid_finite in Hv as [He Hd].
  cbn [SF64sub SFsub].
  pose proof (Zdigits2_bounds (Z.pos m) eq_refl) as [Lm Um].
  pose proof (Zdigits2_bounds (Z.pos mc) eq_refl) as [Lc Uc].
  cbn [Zdigits2] in Lm, Um, Lc, Uc. rewrite mc_digits in Lc, Uc.
  assert (Um' : Z.pos m < 2 ^ 53).
  { eapply Z.lt_le_trans; [exact Um|]. apply Z.pow_le_mono_r; lia. }
  rewrite binary_normalize_is_neg.
  2:{ intros HM. pose proof (Zdigits2_nonzero _ HM). lia. }
  rewrite !(shl_align_fst mc) by lia. cbn [cond_Zopp].
  assert (PA : 0 < 2 ^ (e - Z.min e ec)) by (apply Z.pow_pos_nonneg; lia).
  assert (PB : 0 < 2 ^ (ec - Z.min e ec)) by (apply Z.pow_pos_nonneg; lia).
  unfold SFltb. cbn [SFcompare].
  destruct s; cbn [cond_Zopp].
  - apply Z.ltb_lt. nia.
  - destruct (Z.compare_spec e ec) as [E|E|E].
    + subst ec. replace (Z.min e e) with e by lia.
      replace (e - e) with 0 by lia. rewrite Z.pow_0_r, !Z.mul_1_r.
      change (Pos.compare_cont Eq m mc) with (Pos.compare m mc).
      destruct (Pos.compare_spec m mc) as [E|E|E].
      * subst. apply Z.ltb_ge. lia.
      * apply Z.ltb_lt. lia.
      * apply Z.ltb_ge. lia.
    + apply Z.ltb_lt. replace (Z.min e ec) with e by lia.
      replace (e - e) with 0 by lia. rewrite Z.pow_0_r, Z.mul_1_r.
      assert (2 ^ 1 <= 2 ^ (ec - e)) by (apply Z.pow_le_mono_r; lia).
      change (2 ^ 1) with 2 in *. change (2 ^ 53) with (2 * 2 ^ 52) in Um'.
      change (2 ^ (53 - 1)) with (2 ^ 52) in Lc.
      assert (0 < 2 ^ 52) by reflexivity. nia.
    + apply Z.ltb_ge. replace (Z.min e ec) with ec by lia.
      replace (ec - ec) with 0 by lia. rewrite Z.pow_0_r, Z.mul_1_r.
      assert (Dm : Z.pos (digits2_pos m) = 53) by lia.
      rewrite Dm in Lm. 
      assert (2 ^ 1 <= 2 ^ (e - ec)) by (apply Z.pow_le_mono_r; lia).
      change (2 ^ 1) with 2 in *. change (2 ^ 53) with (2 * 2 ^ 52) in Uc.
      change (2 ^ (53 - 1)) with (2 ^ 52) in Lm.
      assert (0 < 2 ^ 52) by reflexivity. nia.
Qed.

End Constant.

(** The sign test on a difference is the comparison of its operands. *)
Lemma ltb_sub_zero (v l : float) :
  moderate l -> (v - l <? 0)%float = (v <? l)%float.
Proof.
  intros (ml & el & El & Dl & Hl).
  rewrite !ltb_spec. change (Prim2SF 0) with (S754_zero false).
  rewrite SFltb_zero, sub_spec, El.
  apply SFsub_is_neg; try assumption. apply Prim2SF_valid.
Qed.

Lemma is_nan_true (v : float) : is_nan v = true -> v = nan.
Proof.
  intros H. apply Prim2SF_inj. change (Prim2SF nan) with S754_nan.
  destruct (Prim2SF v) eqn:E; try reflexivity;
    assert (N : is_nan v = false)
      by (apply is_nan_false; rewrite E; discriminate);
    congruence.
Qed.

End FloatOrderFacts.

(** ** The cards *)

Module CardFacts.
Import Comparator FloatShape FloatFacts OrderFacts FloatOrderFacts.
Import ComparatorFacts.

Lemma percent_not_na (s : string) : s ++ "%" <> "N/A".
Proof.
  destruct s as [|a [|b [|c [|d s]]]]; cbn; discriminate.
Qed.

(** The card of a pollutant of the table, with the script's own sign
    test. *)
Lemma metric_of_table (p : string) (L v : float) :
  dict_get safe_limits p = Ok L ->
  metric safe_limits p v
  = Ok {| card_pollutant := p;
          card_value := Fmt.format_f 2 v ++ " mg/L";
          card_arrow := if (v <? L)%float then "▼" else "▲";
          card_delta_str :=
            Fmt.format_f 1 (abs ((v - L) / L * 100)) ++ "%";
          card_delta_color :=
            if (v <? L)%float then "#ea3943" else "#16c784" |}.
Proof.
  intros H. pose proof (safe_limit_nonzero p L H) as Hz.
  pose proof (safe_limit_moderate p L H) as Hm.
  unfold metric. rewrite H. cbn [bind].
  rewrite deviation_nonzero by assumption. cbn [bind].
  rewrite ltb_sub_div_100, ltb_sub_zero by assumption. reflexivity.
Qed.

(** X8: whatever the table of limits, a pollutant that has a limit gets a
    card, with its name and its value with two decimals, on which the
    arrow and the colour go together: down with red, up with green, or no
    arrow with black; the last happens exactly when the deviation reads
    N/A, which is exactly when the limit is zero. *)
Theorem card_direction_coupling (limits : list (string * float))
        (p : string) (val L : float) :
  dict_get limits p = Ok L ->
  exists c,
    metric limits p val = Ok c
    /\ card_pollutant c = p
    /\ card_value c = Fmt.format_f 2 val ++ " mg/L"
    /\ ((card_arrow c = "▼" /\ card_delta_color c = "#ea3943")
        \/ (card_arrow c = "▲" /\ card_delta_color c = "#16c784")
        \/ (card_arrow c = "" /\ card_delta_color c = "black"))
    /\ (card_delta_str c = "N/A" <-> card_arrow c = "")
    /\ (card_arrow c = "" <-> (L =? 0)%float = true).
Proof.
  intros HL. unfold metric. rewrite HL. cbn [bind].
  destruct (L =? 0)%float eqn:Hz.
  - unfold deviation. rewrite Hz. cbn [bind]. eexists.
    split; [reflexivity|].
    cbn [card_pollutant card_value card_arrow card_delta_str
         card_delta_color].
    split; [reflexivity|]. split; [reflexivity|].
    split; [right; right; split; reflexivity|].
    split; split; reflexivity.
  - rewrite deviation_nonzero by assumption. cbn [bind].
    destruct (_ <? 0)%float; eexists; (split; [reflexivity|]);
      cbn [card_pollutant card_value card_arrow card_delta_str
           card_delta_color];
      (split; [reflexivity|split; [reflexivity|split; [tauto|split]]]);
      split; try discriminate;
      intros H; now apply percent_not_na in H.
Qed.

Lemma card_direction_coupling_witness :
  exists c,
    metric [("X", 0%float)] "X" 3.5 = Ok c
    /\ card_pollutant c = "X"
    /\ card_value c = Fmt.format_f 2 3.5 ++ " mg/L"
    /\ ((card_arrow c = "▼" /\ card_delta_color c = "#ea3943")
        \/ (card_arrow c = "▲" /\ card_delta_color c = "#16c784")
        \/ (card_arrow c = "" /\ card_delta_color c = "black"))
    /\ (card_delta_str c = "N/A" <-> card_arrow c = "")
    /\ (card_arrow c = "" <-> (0 =? 0)%float = true).
Proof.
  apply (card_direction_coupling [("X", 0%float)] "X" 3.5 0). reflexivity.
Defined.

Lemma string_of_uint_head (u : Decimal.uint) :
  exists ch rest,
    NilZero.string_of_uint u = String ch rest /\ ch <> "-"%char.
Proof.
  destruct u; cbn; do 2 eexists; (split; [reflexivity|discriminate]).
Qed.

Lemma fixed_head (digits : nat) (n : Z) :
  exists ch rest, Fmt.fixed digits n = String ch rest /\ ch <> "-"%char.
Proof.
  unfold Fmt.fixed, Fmt.string_of_Z_nonneg. destruct digits as [|d].
  - apply string_of_uint_head.
  - destruct (string_of_uint_head
                (N.to_uint (Z.to_N (n / 10 ^ Z.of_nat (S d)))))
      as (ch & rest & -> & H).
    cbn [String.append]. eauto.
Qed.

Lemma format_abs_head (digits : nat) (x : float) :
  exists ch rest,
    Fmt.format_f digits (abs x) = String ch rest /\ ch <> "-"%char.
Proof.
  unfold Fmt.format_f. rewrite abs_spec.
  destruct (Prim2SF x) as [s|s| |s m e]; cbn [SFabs Fmt.sign_prefix String.append].
  - apply fixed_head.
  - do 2 eexists. split; [reflexivity|discriminate].
  - do 2 eexists. split; [reflexivity|discriminate].
  - apply fixed_head.
Qed.

(** X9: the deviation printed on a card is never empty and never starts
    with a minus sign, whatever the table, the pollutant and the
    prediction: the direction is given by the arrow alone. *)
Theorem deviation_shown_unsigned (limits : list (string * float))
        (p : string) (val L : float) :
  dict_get limits p = Ok L ->
  exists c ch rest,
    metric limits p val = Ok c
    /\ card_delta_str c = String ch rest /\ ch <> "-"%char.
Proof.
  intros HL. unfold metric. rewrite HL. cbn [bind].
  destruct (L =? 0)%float eqn:Hz.
  - unfold deviation. rewrite Hz. cbn [bind].
    do 3 eexists. split; [reflexivity|]. cbn. split; [reflexivity|discriminate].
  - rewrite deviation_nonzero by assumption. cbn [bind].
    destruct (format_abs_head 1 ((val - L) / L * 100)) as (ch & rest & E & H).
    destruct (_ <? 0)%float; do 3 eexists; (split; [reflexivity|]);
      cbn [card_delta_str]; rewrite E; cbn [String.append]; eauto.
Qed.

Lemma deviation_shown_unsigned_witness :
  exists c ch rest,
    metric safe_limits "O2" 4 = Ok c
    /\ card_delta_str c = String ch rest /\ ch <> "-"%char.
Proof.
  apply (deviation_shown_unsigned safe_limits "O2" 4 5). reflexivity.
Defined.

(** X10: for every pollutant of the table the card shows the down arrow
    in red exactly when the prediction is below the limit, as binary64
    values compare, and the up arrow in green otherwise: at the limit,
    above it, and for a prediction that is not a number. *)
Theorem arrow_down_iff_below (p : string) (L v : float) :
  dict_get safe_limits p = Ok L ->
  exists c,
    metric safe_limits p v = Ok c
    /\ (card_arrow c = "▼" <-> (v <? L)%float = true)
    /\ (card_arrow c = "▲" <-> (v <? L)%float = false)
    /\ (card_delta_color c = "#ea3943" <-> (v <? L)%float = true)
    /\ (card_delta_color c = "#16c784" <-> (v <? L)%float = false).
Proof.
  intros H. eexists. split; [apply metric_of_table, H|].
  cbn [card_arrow card_delta_color].
  destruct (v <? L)%float; repeat split; intros; discriminate || reflexivity.
Qed.

Lemma arrow_down_iff_below_witness :
  exists c,
    metric safe_limits "NO3" 10 = Ok c
    /\ (card_arrow c = "▼" <-> (10 <? 10)%float = true)
    /\ (card_arrow c = "▲" <-> (10 <? 10)%float = false)
    /\ (card_delta_color c = "#ea3943" <-> (10 <? 10)%float = true)
    /\ (card_delta_color c = "#16c784" <-> (10 <? 10)%float = false).
Proof.
  apply (arrow_down_iff_below "NO3" 10 10). reflexivity.
Defined.

(** X11: a prediction that is not a number is not rejected: for every
    pollutant of the table its card reads nan mg/L and nan%, with the up
    arrow in green. *)
Theorem nan_prediction_card (p : string) (L v : float) :
  dict_get safe_limits p = Ok L ->
  is_nan v = true ->
  metric safe_limits p v
  = Ok {| card_pollutant := p;
          card_value := "nan mg/L";
          card_arrow := "▲";
          card_delta_str := "nan%";
          card_delta_color := "#16c784" |}.
Proof.
  intros H Hv. apply is_nan_true in Hv. subst v.
  rewrite (metric_of_table p L nan H).
  apply safe_limits_cases in H as [-> | [-> | [-> | ->]]]; reflexivity.
Qed.

Lemma nan_prediction_card_witness :
  metric safe_limits "PO4" nan
  = Ok {| card_pollutant := "PO4";
          card_value := "nan mg/L";
          card_arrow := "▲";
          card_delta_str := "nan%";
          card_delta_color := "#16c784" |}.
Proof.
  apply (nan_prediction_card "PO4" 0.1 nan); reflexivity.
Defined.

End CardFacts.

(** ** The bars of the safe limits *)

Module LimitBarFacts.
Import Chart Spec ChartFacts VisibilityFacts.

Lemma low_visibility_large_limit (predicted : list float) (p : string) :
  In p ["NO3"; "SO4"; "CL"] -> low_visibility 10 predicted p = false.
Proof.
  unfold low_visibility.
  intros [<-|[<-|[<-|[]]]]; destruct (predicted_of predicted _);
    try reflexivity; cbn [lookup safe_limits String.eqb Ascii.eqb Bool.eqb];
    apply andb_false_r.
Qed.

(** X12: whatever the prediction, only O2, NO2 and PO4 can be named in
    the note: the limits of NO3, SO4 and CL are not below the threshold,
    so these three are never flagged, however small their prediction, and
    the note names at most three pollutants. *)
Theorem only_small_limits_flagged (predicted : list float)
        (fl : list string) :
  detect_low_visibility safe_limits predicted = Ok fl ->
  (forall p, In p fl -> In p ["O2"; "NO2"; "PO4"])
  /\ (List.length fl <= 3)%nat.
Proof.
  rewrite detect_filter. intros H.
  assert (Efl : fl = filter (low_visibility 10 predicted) pollutants)
    by congruence.
  clear H. subst fl.
  assert (E : filter (low_visibility 10 predicted) pollutants
              = filter (low_visibility 10 predicted) ["O2"; "NO2"; "PO4"]).
  { cbn [filter pollutants].
    rewrite (low_visibility_large_limit predicted "NO3"),
      (low_visibility_large_limit predicted "SO4"),
      (low_visibility_large_limit predicted "CL") by (cbn; auto).
    reflexivity. }
  rewrite E. split.
  - intros p H. now apply filter_In in H.
  - apply (filter_length_le (low_visibility 10 predicted) ["O2"; "NO2"; "PO4"]).
Qed.

Lemma only_small_limits_flagged_witness :
  (forall p, In p ["O2"; "NO2"; "PO4"] -> In p ["O2"; "NO2"; "PO4"])
  /\ (List.length ["O2"; "NO2"; "PO4"] <= 3)%nat.
Proof.
  apply (only_small_limits_flagged [4; 12; 0.15; 100; 0.05; 3]%float).
  reflexivity.
Defined.




End LimitBarFacts.
